(** * Student/teacher backend: the two [server.js] files, embedded and verified

    The repository holds two versions of the Express backend:
    - [src/backend/server.js], embedded in [Module Backend];
    - [src/unnamed/part_000], embedded in [Module Variant].

    Both talk to one MySQL store through [db.query].  The store is the
    shared part of the model: tables with an AUTO_INCREMENT key, the
    statements the two files issue, and a schedule saying which of the
    coming queries the store rejects.  Handlers are written in a small
    state-and-error monad over that store; a rejected promise that no
    [catch] handles is an [Err] result, a sent response an [Ok] one. *)

From stdpp Require Import gmap strings list fin_maps sorting.
From Stdlib Require Import ZArith Lia.

Open Scope string_scope.
Open Scope Z_scope.

(** ** JavaScript values of a request body and JSON of a response *)

(** The scalar JSON values a body field can take; [JUndefined] is what
    destructuring gives for a key the body does not have. *)
Inductive jsval :=
| JUndefined
| JNull
| JBool (b : bool)
| JNum (n : Z)
| JStr (s : string).

(** [!v] is [negb (truthy v)]. *)
Definition truthy (v : jsval) : bool :=
  match v with
  | JUndefined | JNull => false
  | JBool b => b
  | JNum n => negb (n =? 0)
  | JStr s => negb (String.eqb s "")
  end.

Set Warnings "-register-all".

Inductive json :=
| JsonNull
| JsonNum (n : Z)
| JsonStr (s : string)
| JsonArr (l : list json)
| JsonObj (l : list (string * json)).

(** ** The store *)

Inductive sqlval :=
| SqlNull
| SqlInt (n : Z)
| SqlText (s : string).

Inductive coltype :=
| IntAutoIncrementPrimaryKey
| Varchar (n : Z) (not_null : bool)
| TimestampDefaultCurrent.

(** A row keeps its primary key apart from the other cells, which are in
    column order. *)
Record row := Row { row_id : Z; row_cells : list (string * sqlval) }.

(** [t_rows] is in storage order. *)
Record table := Table {
  t_columns : list (string * coltype);
  t_rows : list row;
  t_auto_increment : Z
}.

Inductive error :=
| StoreUnavailable
| NoSuchTable (t : string)
| UnknownColumn (c : string)
| ColumnCountMismatch
| DuplicateEntry (id : Z)
| ColumnCannotBeNull (c : string)
| IncorrectKeyValue
| FileNotFound (path : string)
| UndefinedPool.

Inductive result (A : Type) :=
| Ok (a : A)
| Err (e : error).
Arguments Ok {A} a.
Arguments Err {A} e.

Definition is_ok {A} (r : result A) : bool :=
  match r with Ok _ => true | Err _ => false end.

(** What the process writes and does besides querying the store. *)
Inductive message :=
| MissingEnv (key : string)
| Connected (attempt : Z)
| ConnectionFailed (attempt retries : Z) (e : error)
| Retrying (delay : Z)
| TablesEnsured
| ErrorEnsuringTables (e : error)
| ErrorAddingStudent (e : error)
| ErrorAddingTeacher (e : error)
| ErrorDeletingStudent (e : error)
| ErrorDeletingTeacher (e : error)
| FatalCouldNotStart (e : error)
| ServerRunning.

Inductive event :=
| ConsoleLog (m : message)
| ConsoleError (m : message)
| SetTimeout (ms : Z)
| Listen (port : Z).

(** The world a process runs in.  [faults] is the store's availability
    for the coming queries, one entry a query: [Some e] for a query the
    store rejects with [e], [None] for one it serves; past the end of the
    list every query is served. *)
Record world := World {
  tables : gmap string table;
  clock : Z;
  faults : list (option error);
  files : gmap string string;
  trace : list event
}.

Definition set_tables (ts : gmap string table) (w : world) : world :=
  World ts (clock w) (faults w) (files w) (trace w).
Definition set_faults (fs : list (option error)) (w : world) : world :=
  World (tables w) (clock w) fs (files w) (trace w).
Definition add_event (e : event) (w : world) : world :=
  World (tables w) (clock w) (faults w) (files w) (trace w ++ [e]).

(** ** The monad of asynchronous code: state and rejection *)

Definition M (A : Type) : Type := world -> result A * world.

Definition ret {A} (a : A) : M A := fun w => (Ok a, w).
Definition throw {A} (e : error) : M A := fun w => (Err e, w).
Definition bind {A B} (m : M A) (k : A -> M B) : M B :=
  fun w => match m w with
           | (Ok a, w') => k a w'
           | (Err e, w') => (Err e, w')
           end.
Definition try_catch {A} (m : M A) (h : error -> M A) : M A :=
  fun w => match m w with
           | (Ok a, w') => (Ok a, w')
           | (Err e, w') => h e w'
           end.
Definition emit (e : event) : M unit := fun w => (Ok tt, add_event e w).

Declare Scope async_scope.
Delimit Scope async_scope with async.
Notation "x <- m ;; k" := (bind m (fun x => k))
  (at level 100, m at next level, k at level 200, right associativity)
  : async_scope.
Notation "m ;; k" := (bind m (fun _ => k))
  (at level 100, k at level 200, right associativity) : async_scope.
Open Scope async_scope.

(** ** Statements *)

Definition has_column (t : table) (c : string) : bool :=
  bool_decide (c ∈ (t_columns t).*1).

Definition assoc {A} (k : string) (l : list (string * A)) : option A :=
  snd <$> List.find (fun p => String.eqb (fst p) k) l.

Fixpoint digits_of_pos (fuel : nat) (n : Z) (acc : string) : string :=
  match fuel with
  | O => acc
  | S f =>
      let d := String (Ascii.ascii_of_nat (48 + Z.to_nat (n mod 10))) acc in
      if n <? 10 then d else digits_of_pos f (n / 10) d
  end.

(** Decimal text of an integer, as a VARCHAR column keeps a number. *)
Definition decimal (n : Z) : string :=
  if n <? 0 then String.append "-" (digits_of_pos (S (Z.to_nat (Z.log2 (- n)))) (- n) "")
  else digits_of_pos (S (Z.to_nat (Z.log2 n))) n "".

(** The value a VARCHAR cell takes from a bound parameter.  The length
    limit of the column is the server's to enforce and is not modelled. *)
Definition to_varchar (v : sqlval) : sqlval :=
  match v with
  | SqlNull => SqlNull
  | SqlInt n => SqlText (decimal n)
  | SqlText s => SqlText s
  end.

(** The key of a new row: a non-zero number given for [id] is taken, NULL,
    zero or no value lets AUTO_INCREMENT assign it. *)
Definition new_key (t : table) (given : list (string * sqlval)) : result Z :=
  match assoc "id" given with
  | None | Some SqlNull => Ok (t_auto_increment t)
  | Some (SqlInt i) => if i =? 0 then Ok (t_auto_increment t) else Ok i
  | Some (SqlText _) => Err IncorrectKeyValue
  end.

Fixpoint new_cells (now : Z) (cols : list (string * coltype))
    (given : list (string * sqlval)) : result (list (string * sqlval)) :=
  match cols with
  | [] => Ok []
  | (c, ty) :: cols' =>
      let cell :=
        match ty with
        | IntAutoIncrementPrimaryKey => Ok None
        | Varchar _ not_null =>
            let v := to_varchar (default SqlNull (assoc c given)) in
            match v with
            | SqlNull => if not_null then Err (ColumnCannotBeNull c) else Ok (Some v)
            | _ => Ok (Some v)
            end
        | TimestampDefaultCurrent =>
            Ok (Some (default (SqlInt now) (assoc c given)))
        end in
      match cell with
      | Err e => Err e
      | Ok oc =>
          match new_cells now cols' given with
          | Err e => Err e
          | Ok rest =>
              Ok (match oc with Some v => (c, v) :: rest | None => rest end)
          end
      end
  end.

Definition has_key (id : Z) (rows : list row) : bool :=
  existsb (fun r => row_id r =? id) rows.

(** INSERT INTO t (cols) VALUES (vals) *)
Definition insert_into (now : Z) (cols : list string) (vals : list sqlval)
    (t : table) : result table :=
  if negb (length cols =? length vals)%nat then Err ColumnCountMismatch else
  match List.find (fun c => negb (has_column t c)) cols with
  | Some c => Err (UnknownColumn c)
  | None =>
      let given := zip cols vals in
      match new_key t given with
      | Err e => Err e
      | Ok id =>
          match new_cells now (t_columns t) given with
          | Err e => Err e
          | Ok cells =>
              if has_key id (t_rows t) then Err (DuplicateEntry id)
              else Ok (Table (t_columns t)
                             (t_rows t ++ [Row id cells])
                             (Z.max (t_auto_increment t) (id + 1)))
          end
      end
  end.

(** DELETE FROM t WHERE id = ? *)
Definition delete_where_id (id : Z) (t : table) : table :=
  Table (t_columns t)
        (List.filter (fun r => negb (row_id r =? id)) (t_rows t))
        (t_auto_increment t).

(** UPDATE t SET id = ? WHERE id = ? *)
Definition update_id (new old : Z) (t : table) : result table :=
  if negb (has_key old (t_rows t)) then Ok t
  else if new =? old then Ok t
  else if has_key new (t_rows t) then Err (DuplicateEntry new)
  else Ok (Table (t_columns t)
                 (map (fun r => if row_id r =? old then Row new (row_cells r) else r)
                      (t_rows t))
                 (Z.max (t_auto_increment t) (new + 1))).

(** SELECT MAX(id): NULL on an empty table. *)
Definition max_id (rows : list row) : option Z :=
  match rows with
  | [] => None
  | r :: rs => Some (fold_left Z.max (map row_id rs) (row_id r))
  end.

(** SELECT id ... ORDER BY id *)
Definition ids_ordered (rows : list row) : list Z :=
  merge_sort Z.le (map row_id rows).

(** A statement maps the tables (and the server's clock) to a result and
    the tables after it. *)
Definition statement (A : Type) : Type :=
  gmap string table -> Z -> result (A * gmap string table).

Definition read_table {A} (name : string) (f : table -> A) : statement A :=
  fun ts _ =>
    match ts !! name with
    | None => Err (NoSuchTable name)
    | Some t => Ok (f t, ts)
    end.

Definition write_table (name : string) (f : Z -> table -> result table)
    : statement unit :=
  fun ts now =>
    match ts !! name with
    | None => Err (NoSuchTable name)
    | Some t =>
        match f now t with
        | Ok t' => Ok (tt, <[name := t']> ts)
        | Err e => Err e
        end
    end.

(** SELECT 1 *)
Definition SELECT_1 : statement unit := fun ts _ => Ok (tt, ts).

(** CREATE TABLE IF NOT EXISTS name (cols) *)
Definition CREATE_TABLE_IF_NOT_EXISTS (name : string)
    (cols : list (string * coltype)) : statement unit :=
  fun ts _ =>
    match ts !! name with
    | Some _ => Ok (tt, ts)
    | None => Ok (tt, <[name := Table cols [] 1]> ts)
    end.

Definition SELECT_ALL (name : string) : statement (list row) :=
  read_table name t_rows.
Definition SELECT_MAX_ID (name : string) : statement (option Z) :=
  read_table name (fun t => max_id (t_rows t)).
Definition SELECT_ID_ORDER_BY_ID (name : string) : statement (list Z) :=
  read_table name (fun t => ids_ordered (t_rows t)).
Definition INSERT_INTO (name : string) (cols : list string)
    (vals : list sqlval) : statement unit :=
  write_table name (fun now => insert_into now cols vals).
Definition DELETE_WHERE_ID (name : string) (id : Z) : statement unit :=
  write_table name (fun _ t => Ok (delete_where_id id t)).
Definition UPDATE_SET_ID (name : string) (new old : Z) : statement unit :=
  write_table name (fun _ => update_id new old).

(** [db.query(stmt)]: takes the next entry of [faults]; a rejected query
    leaves the tables as they are. *)
Definition query {A} (stmt : statement A) : M A :=
  fun w =>
    let w1 := set_faults (tail (faults w)) w in
    match faults w with
    | Some e :: _ => (Err e, w1)
    | _ =>
        match stmt (tables w) (clock w) with
        | Ok (a, ts) => (Ok a, set_tables ts w1)
        | Err e => (Err e, w1)
        end
    end.

(** ** Fail-fast check of the environment (both files, lines 14-22) *)

Definition REQUIRED_ENV_VARS : list string :=
  ["DB_HOST"; "DB_USER"; "DB_PASSWORD"; "DB_NAME"].

(** [!process.env[key]]: unset, or set to the empty string. *)
Definition env_missing (env : gmap string string) (key : string) : bool :=
  match env !! key with
  | None => true
  | Some v => String.eqb v ""
  end.

(** The [forEach]: [Some code] when [process.exit(code)] was called, which
    ends the process there. *)
Fixpoint check_env (env : gmap string string) (keys : list string)
    (w : world) : option Z * world :=
  match keys with
  | [] => (None, w)
  | key :: rest =>
      if env_missing env key
      then (Some 1, add_event (ConsoleError (MissingEnv key)) w)
      else check_env env rest w
  end.

(** ** Connection with retry *)

Inductive ssl_options :=
| RejectUnauthorized (b : bool)
| CertificateAuthority (pem : string).

Record pool := Pool {
  host : option string;
  user : option string;
  password : option string;
  database : option string;
  port : option Z;
  waitForConnections : bool;
  connectionLimit : Z;
  queueLimit : Z;
  connectTimeout : option Z;
  ssl : ssl_options
}.

Definition digit_of (c : Ascii.ascii) : option Z :=
  let n := Z.of_nat (Ascii.nat_of_ascii c) in
  if (48 <=? n) && (n <=? 57) then Some (n - 48) else None.

Fixpoint digits_value (s : string) (acc : Z) : option Z :=
  match s with
  | EmptyString => Some acc
  | String c s' =>
      match digit_of c with
      | Some d => digits_value s' (10 * acc + d)
      | None => None
      end
  end.

(** [Number(s)] for a non-empty run of decimal digits; [None] stands for
    what [Number] makes of any other text (NaN and the other literal
    forms), which is not modelled. *)
Definition Number (s : string) : option Z :=
  match s with
  | EmptyString => Some 0
  | _ => digits_value s 0
  end.

(** [x || d] on an environment value. *)
Definition env_or {A} (v : option string) (f : string -> A) (d : A) : A :=
  match v with
  | None => d
  | Some s => if String.eqb s "" then d else f s
  end.

Section ConnectWithRetry.

(** [mysql.createPool({...})] of the file at hand. *)
Variable createPool : M pool.

(** The [for] loop over [attempt = 1 .. retries]; [None] is the
    [undefined] of a call that falls out of the loop. *)
Fixpoint attempts_loop (retries delay : Z) (attempts : list Z)
    : M (option pool) :=
  match attempts with
  | [] => ret None
  | attempt :: rest =>
      try_catch
        (pool <- createPool ;;
         query SELECT_1 ;;
         emit (ConsoleLog (Connected attempt)) ;;
         ret (Some pool))
        (fun error =>
           emit (ConsoleError (ConnectionFailed attempt retries error)) ;;
           if attempt =? retries then throw error
           else
             emit (ConsoleLog (Retrying delay)) ;;
             emit (SetTimeout delay) ;;
             attempts_loop retries delay rest)
  end.

Definition attempt_numbers (retries : Z) : list Z :=
  map Z.of_nat (seq 1 (Z.to_nat retries)).

(** [connectWithRetry(retries = 10, delay = 3000)]; an argument left
    out is [None]. *)
Definition connectWithRetry (retries delay : option Z) : M (option pool) :=
  let retries := default 10 retries in
  let delay := default 3000 delay in
  attempts_loop retries delay (attempt_numbers retries).

End ConnectWithRetry.

(** [db.query(stmt)] on what [connectWithRetry] resolved to: reading
    [query] off [undefined] throws before anything is sent. *)
Definition db_query {A} (db : option pool) (stmt : statement A) : M A :=
  match db with
  | Some _ => query stmt
  | None => throw UndefinedPool
  end.

(** ** Requests and responses *)

Record response := Response { status : Z; body : json }.

(** The routes.  A body is the parsed JSON object; [id] is the number the
    store compares the key with when it is given [req.params.id]. *)
Inductive request :=
| GET_health
| GET_ready
| GET_root
| GET_student
| GET_teacher
| POST_addstudent (body : gmap string jsval)
| POST_addteacher (body : gmap string jsval)
| DELETE_student (id : Z)
| DELETE_teacher (id : Z).

(** [res.json(x)] answers with status 200. *)
Definition res_json (b : json) : M response := ret (Response 200 b).
Definition res_status_json (s : Z) (b : json) : M response := ret (Response s b).

Definition message_json (m : string) : json := JsonObj [("message", JsonStr m)].
Definition error_json (m : string) : json := JsonObj [("error", JsonStr m)].
Definition status_json (m : string) : json := JsonObj [("status", JsonStr m)].

Definition sql_json (v : sqlval) : json :=
  match v with
  | SqlNull => JsonNull
  | SqlInt n => JsonNum n
  | SqlText s => JsonStr s
  end.

Definition row_json (r : row) : json :=
  JsonObj (("id", JsonNum (row_id r))
           :: map (fun cv => (fst cv, sql_json (snd cv))) (row_cells r)).

Definition rows_json (rs : list row) : json := JsonArr (map row_json rs).

(** [req.body.k] *)
Definition prop (body : gmap string jsval) (k : string) : jsval :=
  default JUndefined (body !! k).

(** The value bound to a [?] placeholder. *)
Definition bound (v : jsval) : sqlval :=
  match v with
  | JUndefined | JNull => SqlNull
  | JBool b => SqlInt (if b then 1 else 0)
  | JNum n => SqlInt n
  | JStr s => SqlText s
  end.

(** The handlers query through the global [db]; they are registered only
    once [ensureTables(db)] has returned, so [db] is a pool when they run
    and [db.query] is [query].

    Liveness and readiness probes, the same in both files. *)
Definition health : M response :=
  res_status_json 200 (status_json "UP").

Definition ready : M response :=
  try_catch
    (query SELECT_1 ;;
     res_status_json 200 (status_json "READY"))
    (fun _ => res_status_json 500 (status_json "NOT_READY")).

(** The list routes, the same in both files. *)
Definition get_root : M response :=
  data <- query (SELECT_ALL "student") ;;
  res_json (JsonObj [("message", JsonStr "From Backend");
                     ("studentData", rows_json data)]).

Definition get_student : M response :=
  data <- query (SELECT_ALL "student") ;;
  res_json (rows_json data).

Definition get_teacher : M response :=
  data <- query (SELECT_ALL "teacher") ;;
  res_json (rows_json data).

(** What the process has become when the start-up code has run; [db] is
    the value of the global the handlers query through. *)
Inductive process :=
| Exited (code : Z)
| Serving (db : option pool).

Section Startup.

Variable createPool : M pool.
Variable ensureTables : option pool -> M unit.

(** The [async] start-up function: connect, ensure the tables, register
    the routes and listen; any rejection is fatal. *)
Definition init (w : world) : process * world :=
  match (db <- connectWithRetry createPool None None ;;
         ensureTables db ;;
         emit (Listen 3500) ;;
         emit (ConsoleLog ServerRunning) ;;
         ret db) w with
  | (Ok db, w') => (Serving db, w')
  | (Err e, w') =>
      (Exited 1, add_event (ConsoleError (FatalCouldNotStart e)) w')
  end.

(** The whole script: the environment check, then [init]. *)
Definition main (env : gmap string string) (w : world) : process * world :=
  match check_env env REQUIRED_ENV_VARS w with
  | (Some code, w') => (Exited code, w')
  | (None, w') => init w'
  end.

End Startup.

(** ** [src/backend/server.js] *)

Module Backend.

(** The tables of [ensureTables] (lines 68-95). *)
Definition student_columns : list (string * coltype) :=
  [("id", IntAutoIncrementPrimaryKey);
   ("name", Varchar 255 true);
   ("roll_number", Varchar 255 true);
   ("class_name", Varchar 255 true);
   ("created_at", TimestampDefaultCurrent)].

Definition teacher_columns : list (string * coltype) :=
  [("id", IntAutoIncrementPrimaryKey);
   ("name", Varchar 255 true);
   ("subject", Varchar 255 true);
   ("class_name", Varchar 255 true);
   ("created_at", TimestampDefaultCurrent)].

Definition ensureTables (db : option pool) : M unit :=
  try_catch
    (db_query db (CREATE_TABLE_IF_NOT_EXISTS "student" student_columns) ;;
     db_query db (CREATE_TABLE_IF_NOT_EXISTS "teacher" teacher_columns) ;;
     emit (ConsoleLog TablesEnsured))
    (fun error =>
       emit (ConsoleError (ErrorEnsuringTables error)) ;;
       throw error).

(** [mysql.createPool] of lines 29-45. *)
Definition createPool (env : gmap string string) : M pool :=
  ret (Pool (env !! "DB_HOST") (env !! "DB_USER") (env !! "DB_PASSWORD")
            (env !! "DB_NAME")
            (env_or (env !! "DB_PORT") Number (Some 3306))
            true 10 0 (Some 20000) (RejectUnauthorized false)).

(** POST /addstudent (lines 139-161) *)
Definition addstudent (body : gmap string jsval) : M response :=
  try_catch
    (let name := prop body "name" in
     let rollNo := prop body "rollNo" in
     let className := prop body "class" in
     if negb (truthy name) || negb (truthy rollNo) || negb (truthy className)
     then res_status_json 400
            (error_json "Invalid payload: name, rollNo, class required")
     else
       query (INSERT_INTO "student" ["name"; "roll_number"; "class_name"]
                [bound name; bound rollNo; bound className]) ;;
       res_status_json 201 (message_json "Student added successfully"))
    (fun err =>
       emit (ConsoleError (ErrorAddingStudent err)) ;;
       res_status_json 500 (error_json "Internal server error")).

(** POST /addteacher (lines 165-187) *)
Definition addteacher (body : gmap string jsval) : M response :=
  try_catch
    (let name := prop body "name" in
     let subject := prop body "subject" in
     let className := prop body "class" in
     if negb (truthy name) || negb (truthy subject) || negb (truthy className)
     then res_status_json 400 (error_json "Invalid payload")
     else
       query (INSERT_INTO "teacher" ["name"; "subject"; "class"]
                [bound name; bound subject; bound className]) ;;
       res_status_json 201 (message_json "Teacher added successfully"))
    (fun err =>
       emit (ConsoleError (ErrorAddingTeacher err)) ;;
       res_status_json 500 (error_json "Internal server error")).

(** DELETE /student/:id (lines 191-199) *)
Definition delete_student (id : Z) : M response :=
  try_catch
    (query (DELETE_WHERE_ID "student" id) ;;
     res_json (message_json "Student deleted successfully"))
    (fun err =>
       emit (ConsoleError (ErrorDeletingStudent err)) ;;
       res_status_json 500 (error_json "Internal server error")).

(** DELETE /teacher/:id (lines 203-211) *)
Definition delete_teacher (id : Z) : M response :=
  try_catch
    (query (DELETE_WHERE_ID "teacher" id) ;;
     res_json (message_json "Teacher deleted successfully"))
    (fun err =>
       emit (ConsoleError (ErrorDeletingTeacher err)) ;;
       res_status_json 500 (error_json "Internal server error")).

(** The routes registered on [app]. *)
Definition handle (req : request) : M response :=
  match req with
  | GET_health => health
  | GET_ready => ready
  | GET_root => get_root
  | GET_student => get_student
  | GET_teacher => get_teacher
  | POST_addstudent body => addstudent body
  | POST_addteacher body => addteacher body
  | DELETE_student id => delete_student id
  | DELETE_teacher id => delete_teacher id
  end.

Definition main (env : gmap string string) : world -> process * world :=
  main (createPool env) ensureTables env.

End Backend.

(** ** [src/unnamed/part_000] *)

(** [Promise.all(ps)]: every promise of [ps] has been started when it is
    called, so every one runs; the result is rejected with the first
    rejection.  The queries are taken in the order they were issued. *)
Fixpoint promise_all {A} (ps : list (M A)) : M (list A) :=
  match ps with
  | [] => ret []
  | p :: rest =>
      fun w =>
        match p w with
        | (Ok a, w') =>
            match promise_all rest w' with
            | (Ok l, w'') => (Ok (a :: l), w'')
            | (Err e, w'') => (Err e, w'')
            end
        | (Err e, w') => (Err e, snd (promise_all rest w'))
        end
  end.

Module Variant.

(** The tables of [ensureTables] (lines 69-96). *)
Definition student_columns : list (string * coltype) :=
  [("id", IntAutoIncrementPrimaryKey);
   ("name", Varchar 255 false);
   ("roll_number", Varchar 255 false);
   ("class", Varchar 255 false);
   ("created_at", TimestampDefaultCurrent)].

Definition teacher_columns : list (string * coltype) :=
  [("id", IntAutoIncrementPrimaryKey);
   ("name", Varchar 255 false);
   ("subject", Varchar 255 false);
   ("class", Varchar 255 false);
   ("created_at", TimestampDefaultCurrent)].

Definition ensureTables (db : option pool) : M unit :=
  try_catch
    (db_query db (CREATE_TABLE_IF_NOT_EXISTS "student" student_columns) ;;
     db_query db (CREATE_TABLE_IF_NOT_EXISTS "teacher" teacher_columns) ;;
     emit (ConsoleLog TablesEnsured))
    (fun error =>
       emit (ConsoleError (ErrorEnsuringTables error)) ;;
       throw error).

(** [fs.readFileSync(path)] *)
Definition readFileSync (path : string) : M string :=
  fun w => match files w !! path with
           | Some text => (Ok text, w)
           | None => (Err (FileNotFound path), w)
           end.

(** [mysql.createPool] of lines 30-44. *)
Definition createPool (env : gmap string string) : M pool :=
  ca <- readFileSync "/app/global-bundle.pem" ;;
  ret (Pool (env !! "DB_HOST") (env !! "DB_USER") (env !! "DB_PASSWORD")
            (env !! "DB_NAME") (Some 3306)
            true 10 0 None (CertificateAuthority ca)).

(** [result[0].lastID || 0] *)
Definition lastID_or_0 (lastID : option Z) : Z :=
  match lastID with
  | None => 0
  | Some n => n
  end.

Definition getLastStudentID : M Z :=
  result <- query (SELECT_MAX_ID "student") ;;
  ret (lastID_or_0 result).

Definition getLastTeacherID : M Z :=
  result <- query (SELECT_MAX_ID "teacher") ;;
  ret (lastID_or_0 result).

(** POST /addstudent (lines 152-163) *)
Definition addstudent (body : gmap string jsval) : M response :=
  let name := prop body "name" in
  let rollNo := prop body "rollNo" in
  let className := prop body "class" in
  last <- getLastStudentID ;;
  let nextID := last + 1 in
  query (INSERT_INTO "student" ["id"; "name"; "roll_number"; "class"]
           [SqlInt nextID; bound name; bound rollNo; bound className]) ;;
  res_json (message_json "Student added successfully").

(** POST /addteacher (lines 165-176) *)
Definition addteacher (body : gmap string jsval) : M response :=
  let name := prop body "name" in
  let subject := prop body "subject" in
  let className := prop body "class" in
  last <- getLastTeacherID ;;
  let nextID := last + 1 in
  query (INSERT_INTO "teacher" ["id"; "name"; "subject"; "class"]
           [SqlInt nextID; bound name; bound subject; bound className]) ;;
  res_json (message_json "Teacher added successfully").

(** [rows.map((row, index) => db.query('UPDATE t SET id = ? WHERE id = ?',
    [index + 1, row.id]))] *)
Definition renumber (t : string) (rows : list Z) : list (M unit) :=
  imap (fun index id => query (UPDATE_SET_ID t (Z.of_nat index + 1) id)) rows.

(** DELETE /student/:id (lines 178-191) *)
Definition delete_student (studentId : Z) : M response :=
  query (DELETE_WHERE_ID "student" studentId) ;;
  rows <- query (SELECT_ID_ORDER_BY_ID "student") ;;
  promise_all (renumber "student" rows) ;;
  res_json (message_json "Student deleted successfully").

(** DELETE /teacher/:id (lines 193-206) *)
Definition delete_teacher (teacherId : Z) : M response :=
  query (DELETE_WHERE_ID "teacher" teacherId) ;;
  rows <- query (SELECT_ID_ORDER_BY_ID "teacher") ;;
  promise_all (renumber "teacher" rows) ;;
  res_json (message_json "Teacher deleted successfully").

Definition handle (req : request) : M response :=
  match req with
  | GET_health => health
  | GET_ready => ready
  | GET_root => get_root
  | GET_student => get_student
  | GET_teacher => get_teacher
  | POST_addstudent body => addstudent body
  | POST_addteacher body => addteacher body
  | DELETE_student id => delete_student id
  | DELETE_teacher id => delete_teacher id
  end.

Definition main (env : gmap string string) : world -> process * world :=
  main (createPool env) ensureTables env.

End Variant.

(** ** Vocabulary of the statements below *)

Definition ids (t : table) : list Z := map row_id (t_rows t).

Fixpoint increasing_from (lo : Z) (l : list Z) : bool :=
  match l with
  | [] => true
  | i :: l' => (lo <? i) && increasing_from i l'
  end.

(** What the store keeps true of a table only these handlers have written
    to: keys are positive, rows lie in key order (a table clustered on its
    primary key lists them so), and the AUTO_INCREMENT counter is positive
    and above every key. *)
Definition well_formed (t : table) : bool :=
  (0 <? t_auto_increment t)
  && increasing_from 0 (ids t)
  && forallb (fun i => i <? t_auto_increment t) (ids t).

(** What one request does to a table: nothing, or one row appended under
    the key the AUTO_INCREMENT counter holds, or the rows of one key
    removed. *)
Inductive table_step (t : table) : table -> Prop :=
| step_none : table_step t t
| step_insert (cells : list (string * sqlval)) :
    table_step t (Table (t_columns t)
                        (t_rows t ++ [Row (t_auto_increment t) cells])
                        (t_auto_increment t + 1))
| step_delete (id : Z) : table_step t (delete_where_id id t).

(** The rows with their keys replaced by 1, 2, ... in storage order. *)
Definition renumbered (rows : list row) : list row :=
  imap (fun index r => Row (Z.of_nat index + 1) (row_cells r)) rows.

(** The error the store has for the next query, if it rejects it. *)
Definition next_fault (w : world) : option error :=
  match faults w with
  | Some e :: _ => Some e
  | _ => None
  end.

(** The world once [n] more queries have been taken. *)
Definition after_queries (n : nat) (w : world) : world :=
  set_faults (drop n (faults w)) w.

(** What [connectWithRetry] writes for failed attempts [attempt],
    [attempt + 1], ... that are not the last one allowed. *)
Fixpoint failures (retries delay attempt : Z) (errs : list error) : list event :=
  match errs with
  | [] => []
  | e :: errs' =>
      ConsoleError (ConnectionFailed attempt retries e)
      :: ConsoleLog (Retrying delay)
      :: SetTimeout delay
      :: failures retries delay (attempt + 1) errs'
  end.

(** A required field the body does not have, or has as the empty string. *)
Definition absent_or_empty (body : gmap string jsval) (k : string) : Prop :=
  body !! k = None \/ body !! k = Some (JStr "").

Definition is_list_request (req : request) : bool :=
  match req with
  | GET_root | GET_student | GET_teacher => true
  | _ => false
  end.

Definition rows_of (name : string) (w : world) : list row :=
  match tables w !! name with
  | Some t => t_rows t
  | None => []
  end.

(** The fields a create request must carry, as the handler reads them. *)
Definition required_fields (req : request) : list jsval :=
  match req with
  | POST_addstudent body =>
      [prop body "name"; prop body "rollNo"; prop body "class"]
  | POST_addteacher body =>
      [prop body "name"; prop body "subject"; prop body "class"]
  | _ => []
  end.

Definition is_write_request (req : request) : bool :=
  match req with
  | POST_addstudent _ | POST_addteacher _
  | DELETE_student _ | DELETE_teacher _ => true
  | _ => false
  end.

(** The tables once CREATE TABLE IF NOT EXISTS [name] has been served. *)
Definition ensured (name : string) (cols : list (string * coltype))
    (ts : gmap string table) : gmap string table :=
  match ts !! name with
  | Some _ => ts
  | None => <[name := Table cols [] 1]> ts
  end.

(** The values of a body field that [!field] rejects. *)
Definition falsy_values : list jsval := [JNull; JBool false; JNum 0; JStr ""].

(** The world after a sequence of requests, each handled to its end before
    the next. *)
Fixpoint serve (handle : request -> M response) (reqs : list request)
    (w : world) : world :=
  match reqs with
  | [] => w
  | req :: reqs' => serve handle reqs' (snd (handle req w))
  end.

(** Both tables exist, with the columns given, and are well-formed. *)
Definition store_ok (scols tcols : list (string * coltype)) (w : world) : Prop :=
  exists s t,
    tables w !! "student" = Some s /\ tables w !! "teacher" = Some t /\
    t_columns s = scols /\ t_columns t = tcols /\
    well_formed s = true /\ well_formed t = true.

(** ** Sample stores *)

Definition sample_pool : pool :=
  Pool (Some "db") (Some "root") (Some "secret") (Some "school") (Some 3306)
       true 10 0 (Some 20000) (RejectUnauthorized false).

Definition backend_student (id : Z) (name : string) : row :=
  Row id [("name", SqlText name); ("roll_number", SqlText "7");
          ("class_name", SqlText "5A"); ("created_at", SqlInt 0)].

Definition variant_student (id : Z) (name : string) : row :=
  Row id [("name", SqlText name); ("roll_number", SqlText "7");
          ("class", SqlText "5A"); ("created_at", SqlInt 0)].

(** The store as the start-up of [backend/server.js] leaves it, with
    [students] in the student table. *)
Definition backend_world (students : list row) (next : Z) : world :=
  World {["student" := Table Backend.student_columns students next;
          "teacher" := Table Backend.teacher_columns [] 1]} 0 [] ∅ [].

(** The same for [part_000]. *)
Definition variant_world (students : list row) (next : Z) : world :=
  World {["student" := Table Variant.student_columns students next;
          "teacher" := Table Variant.teacher_columns [] 1]} 0 [] ∅ [].

(** ** The monad and [db.query] *)

Lemma bind_Ok {A B} (m : M A) (k : A -> M B) w a w' :
  m w = (Ok a, w') -> bind m k w = k a w'.
Proof. unfold bind. intros ->. reflexivity. Qed.

Lemma bind_Err {A B} (m : M A) (k : A -> M B) w e w' :
  m w = (Err e, w') -> bind m k w = (Err e, w').
Proof. unfold bind. intros ->. reflexivity. Qed.

Lemma try_catch_Ok {A} (m : M A) h w a w' :
  m w = (Ok a, w') -> try_catch m h w = (Ok a, w').
Proof. unfold try_catch. intros ->. reflexivity. Qed.

Lemma try_catch_Err {A} (m : M A) h w e w' :
  m w = (Err e, w') -> try_catch m h w = h e w'.
Proof. unfold try_catch. intros ->. reflexivity. Qed.

Lemma after_queries_0 w : after_queries 0 w = w.
Proof. destruct w. reflexivity. Qed.

Lemma after_queries_S n w :
  after_queries (S n) w = after_queries n (after_queries 1 w).
Proof.
  unfold after_queries, set_faults. simpl.
  rewrite drop_drop. reflexivity.
Qed.

Lemma query_rejected {A} (stmt : statement A) w e :
  next_fault w = Some e -> query stmt w = (Err e, after_queries 1 w).
Proof.
  unfold next_fault, query, after_queries.
  destruct (faults w) as [|[e'|] fs]; intros H; inversion H; reflexivity.
Qed.

Lemma query_served {A} (stmt : statement A) w :
  next_fault w = None ->
  query stmt w =
    match stmt (tables w) (clock w) with
    | Ok (a, ts) => (Ok a, set_tables ts (after_queries 1 w))
    | Err e => (Err e, after_queries 1 w)
    end.
Proof.
  unfold next_fault, query, after_queries.
  destruct (faults w) as [|[e'|] fs]; intros H; inversion H; reflexivity.
Qed.

(** ** The probes *)

(** C6: in both files GET /health always answers 200 {status: "UP"} and
    leaves the world alone; GET /ready answers 200 {status: "READY"}
    exactly when the store serves its SELECT 1, 500 {status: "NOT_READY"}
    exactly when it does not, and is never rejected. *)
Theorem health_and_ready_probes (w : world) :
  Backend.handle GET_health w = (Ok (Response 200 (status_json "UP")), w) /\
  Variant.handle GET_health w = (Ok (Response 200 (status_json "UP")), w) /\
  Variant.handle GET_ready w = Backend.handle GET_ready w /\
  (is_ok (fst (query SELECT_1 w)) = true <->
   fst (Backend.handle GET_ready w)
   = Ok (Response 200 (status_json "READY"))) /\
  (is_ok (fst (query SELECT_1 w)) = false <->
   fst (Backend.handle GET_ready w)
   = Ok (Response 500 (status_json "NOT_READY"))) /\
  is_ok (fst (Backend.handle GET_ready w)) = true.
Proof.
  split; [reflexivity|]. split; [reflexivity|]. split; [reflexivity|].
  simpl. unfold ready, try_catch, bind, query, SELECT_1, res_status_json, ret.
  destruct (faults w) as [|[e|] fs]; simpl;
    (split; [|split]); try reflexivity; split; intros H;
    try reflexivity; discriminate H.
Qed.

(** ** The environment check *)

Lemma check_env_first_missing env (keys : list string) w (key : string) :
  key ∈ keys -> env_missing env key = true ->
  exists pre k post,
    keys = (pre ++ k :: post)%list /\
    Forall (fun k' => env_missing env k' = false) pre /\
    env_missing env k = true /\
    check_env env keys w
    = (Some 1, add_event (ConsoleError (MissingEnv k)) w).
Proof.
  induction keys as [|k0 keys IH]; intros Hin Hmiss.
  - inversion Hin.
  - simpl. destruct (env_missing env k0) eqn:Hk0.
    + exists [], k0, keys. auto.
    + assert (Hin' : key ∈ keys).
      { apply elem_of_cons in Hin as [->|Hin]; [congruence|exact Hin]. }
      destruct (IH Hin' Hmiss) as (pre & k & post & -> & Hpre & Hk & Hrun).
      exists (k0 :: pre), k, post. auto.
Qed.

(** C7: when a required key is unset, the script (of either file) exits
    with status 1 after one console error naming a required key that is
    missing, the first in the order of REQUIRED_ENV_VARS, hence the unset
    key itself when no other is missing.  Nothing else has happened: no
    pool was created, no query was sent, no listener opened. *)
Theorem missing_env_exits (env : gmap string string) (key : string) (w : world) :
  key ∈ REQUIRED_ENV_VARS -> env !! key = None ->
  exists pre k post,
    REQUIRED_ENV_VARS = (pre ++ k :: post)%list /\
    Forall (fun k' => env_missing env k' = false) pre /\
    env_missing env k = true /\
    Backend.main env w
    = (Exited 1, add_event (ConsoleError (MissingEnv k)) w) /\
    Variant.main env w
    = (Exited 1, add_event (ConsoleError (MissingEnv k)) w) /\
    ((forall k', k' ∈ REQUIRED_ENV_VARS -> k' <> key ->
                 env_missing env k' = false) -> k = key).
Proof.
  intros Hin Hunset.
  assert (Hmiss : env_missing env key = true).
  { unfold env_missing. rewrite Hunset. reflexivity. }
  destruct (check_env_first_missing env _ w key Hin Hmiss)
    as (pre & k & post & Hsplit & Hpre & Hk & Hrun).
  exists pre, k, post.
  unfold Backend.main, Variant.main, main. rewrite Hrun.
  repeat split; try assumption.
  intros Hothers. destruct (decide (k = key)) as [|Hne]; [assumption|].
  rewrite Hothers in Hk; [discriminate| |assumption].
  rewrite Hsplit. apply elem_of_app. right. apply elem_of_cons. left. reflexivity.
Qed.

Lemma missing_env_exits_witness :
  exists pre k post,
    REQUIRED_ENV_VARS = (pre ++ k :: post)%list /\
    Forall (fun k' => env_missing
                        {["DB_HOST" := "db"; "DB_USER" := "root";
                          "DB_NAME" := "school"]} k' = false) pre /\
    env_missing {["DB_HOST" := "db"; "DB_USER" := "root";
                  "DB_NAME" := "school"]} k = true /\
    Backend.main {["DB_HOST" := "db"; "DB_USER" := "root";
                   "DB_NAME" := "school"]} (World ∅ 0 [] ∅ [])
    = (Exited 1, add_event (ConsoleError (MissingEnv k)) (World ∅ 0 [] ∅ [])) /\
    Variant.main {["DB_HOST" := "db"; "DB_USER" := "root";
                   "DB_NAME" := "school"]} (World ∅ 0 [] ∅ [])
    = (Exited 1, add_event (ConsoleError (MissingEnv k)) (World ∅ 0 [] ∅ [])) /\
    ((forall k', k' ∈ REQUIRED_ENV_VARS -> k' <> "DB_PASSWORD" ->
                 env_missing {["DB_HOST" := "db"; "DB_USER" := "root";
                               "DB_NAME" := "school"]} k' = false)
     -> k = "DB_PASSWORD").
Proof.
  apply (missing_env_exits _ "DB_PASSWORD").
  - unfold REQUIRED_ENV_VARS. set_solver.
  - reflexivity.
Defined.

(** ** Connection with retry *)

Section RetryLoop.

Variable createPool : M pool.
Variable p : pool.
Variables retries delay : Z.

Variable disk : gmap string string.

(** [mysql.createPool] builds its pool without touching the store (the
    pool only connects at its first query); what it reads, if anything,
    is a file. *)
Hypothesis createPool_builds :
  forall w, files w = disk -> createPool w = (Ok p, w).

Lemma attempts_loop_succeeds (errs : list error) :
  forall (start len : nat) (w : world) (rest : list (option error)),
    files w = disk ->
    faults w = (map Some errs ++ None :: rest)%list ->
    (length errs < len)%nat ->
    (forall j, (j < length errs)%nat -> Z.of_nat (start + j) <> retries) ->
    attempts_loop createPool retries delay (map Z.of_nat (seq start len)) w
    = (Ok (Some p),
       World (tables w) (clock w) rest (files w)
             (trace w ++ failures retries delay (Z.of_nat start) errs
                ++ [ConsoleLog (Connected (Z.of_nat (start + length errs)))])).
Proof.
  induction errs as [|e errs IH]; intros start len w rest Hd Hf Hlen Hne;
    (destruct len as [|len]; [simpl in Hlen; lia|]); simpl in Hf |- *.
  - unfold try_catch, bind. rewrite (createPool_builds w Hd).
    unfold query. rewrite Hf. simpl. rewrite Nat.add_0_r. reflexivity.
  - unfold try_catch at 1. unfold bind at 1. rewrite (createPool_builds w Hd).
    unfold bind at 1. unfold query at 1. rewrite Hf.
    unfold bind at 1. unfold emit at 1.
    destruct (Z.of_nat start =? retries) eqn:Hlast.
    + apply Z.eqb_eq in Hlast. exfalso. apply (Hne O); [simpl; lia|].
      rewrite Nat.add_0_r. exact Hlast.
    + unfold bind at 1. unfold emit at 1. unfold bind at 1. unfold emit at 1.
      rewrite (IH (S start) len _ rest).
      * simpl. rewrite <- !app_assoc. simpl.
        replace (Z.of_nat start + 1) with (Z.of_nat (S start)) by lia.
        replace (S (start + length errs)) with (start + S (length errs))%nat by lia.
        reflexivity.
      * exact Hd.
      * reflexivity.
      * simpl in Hlen. lia.
      * intros j Hj. replace (S start + j)%nat with (start + S j)%nat by lia.
        apply Hne. simpl. lia.
Qed.

Lemma attempts_loop_exhausted (errs : list error) :
  forall (start : nat) (w : world) (rest : list (option error)) (e : error),
    files w = disk ->
    faults w = (map Some (errs ++ [e]) ++ rest)%list ->
    Z.of_nat (start + length errs) = retries ->
    attempts_loop createPool retries delay
      (map Z.of_nat (seq start (S (length errs)))) w
    = (Err e,
       World (tables w) (clock w) rest (files w)
             (trace w ++ failures retries delay (Z.of_nat start) errs
                ++ [ConsoleError (ConnectionFailed retries retries e)])).
Proof.
  induction errs as [|e0 errs IH]; intros start w rest e Hd Hf Hlast;
    simpl in Hf;
    [ change (seq start (S (length (@nil error)))) with [start]
    | change (seq start (S (length (e0 :: errs))))
        with (start :: seq (S start) (S (length errs))) ];
    cbn [map]; cbn [attempts_loop].
  - unfold try_catch, bind. rewrite (createPool_builds w Hd).
    unfold query. rewrite Hf. unfold emit.
    rewrite Nat.add_0_r in Hlast. rewrite Hlast, Z.eqb_refl. reflexivity.
  - unfold try_catch at 1. unfold bind at 1. rewrite (createPool_builds w Hd).
    unfold bind at 1. unfold query at 1. rewrite Hf.
    unfold bind at 1. unfold emit at 1.
    destruct (Z.of_nat start =? retries) eqn:Hnow.
    + apply Z.eqb_eq in Hnow. simpl in Hlast. lia.
    + unfold bind at 1. unfold emit at 1. unfold bind at 1. unfold emit at 1.
      rewrite (IH (S start) _ rest e).
      * simpl. rewrite <- !app_assoc. simpl.
        replace (Z.of_nat start + 1) with (Z.of_nat (S start)) by lia.
        reflexivity.
      * exact Hd.
      * reflexivity.
      * simpl in Hlast. rewrite <- Hlast. f_equal. lia.
Qed.

End RetryLoop.

(** C3: when the store rejects the first N connection attempts (with
    errors [errs]) and serves the next one, [connectWithRetry(retries,
    delay)] returns the pool at attempt N+1 if N+1 <= retries, having
    logged each failure and waited [delay] after it; if 1 <= retries <= N
    it is rejected with the error of attempt [retries], the last one made.
    Left out, the arguments are 10 and 3000.  [createPool] is that of
    either file, on a disk where it finds what it reads. *)
Theorem connectWithRetry_fails_then_succeeds
    (createPool : M pool) (p : pool) (retries delay : Z)
    (errs : list error) (rest : list (option error)) (w : world) :
  (forall w', files w' = files w -> createPool w' = (Ok p, w')) ->
  faults w = (map Some errs ++ None :: rest)%list ->
  (Z.of_nat (length errs) + 1 <= retries ->
   connectWithRetry createPool (Some retries) (Some delay) w
   = (Ok (Some p),
      World (tables w) (clock w) rest (files w)
            (trace w ++ failures retries delay 1 errs
               ++ [ConsoleLog (Connected (Z.of_nat (length errs) + 1))]))) /\
  (1 <= retries <= Z.of_nat (length errs) ->
   exists e,
     errs !! Z.to_nat (retries - 1) = Some e /\
     connectWithRetry createPool (Some retries) (Some delay) w
     = (Err e,
        World (tables w) (clock w) (drop (Z.to_nat retries) (faults w)) (files w)
              (trace w
                 ++ failures retries delay 1 (take (Z.to_nat (retries - 1)) errs)
                 ++ [ConsoleError (ConnectionFailed retries retries e)]))) /\
  connectWithRetry createPool None None
  = connectWithRetry createPool (Some 10) (Some 3000).
Proof.
  intros Hcp Hf. split; [|split]; [| |reflexivity].
  - intros Hle. unfold connectWithRetry, attempt_numbers. simpl default.
    rewrite (attempts_loop_succeeds createPool p retries delay (files w) Hcp
               errs 1 (Z.to_nat retries) w rest eq_refl Hf);
      [| lia | intros j Hj; lia].
    change (Z.of_nat 1) with 1.
    replace (Z.of_nat (1 + length errs)) with (Z.of_nat (length errs) + 1) by lia.
    reflexivity.
  - intros [Hlo Hhi].
    set (n := Z.to_nat (retries - 1)).
    assert (Hn : (n < length errs)%nat) by (unfold n; lia).
    destruct (lookup_lt_is_Some_2 errs n Hn) as [e He].
    exists e. split; [exact He|].
    unfold connectWithRetry, attempt_numbers. simpl default.
    pose proof (take_drop_middle errs n e He) as Hsplit.
    assert (Hlen : length (take n errs) = n) by (rewrite length_take; lia).
    replace (Z.to_nat retries) with (S (length (take n errs)))
      by (rewrite Hlen; unfold n; lia).
    rewrite (attempts_loop_exhausted createPool p retries delay (files w) Hcp
               (take n errs) 1 w
               (map Some (drop (S n) errs) ++ None :: rest) e eq_refl).
    + change (Z.of_nat 1) with 1. rewrite Hlen. repeat f_equal.
      rewrite Hf. rewrite drop_app_le by (rewrite length_map; lia).
      rewrite skipn_map. reflexivity.
    + rewrite Hf. rewrite <- Hsplit at 1.
      rewrite !map_app, <- !app_assoc. reflexivity.
    + rewrite Hlen. unfold n. lia.
Qed.

Lemma connectWithRetry_fails_then_succeeds_witness :
  connectWithRetry (Backend.createPool ∅) (Some 3) (Some 3000)
    (World ∅ 0 [Some StoreUnavailable; Some StoreUnavailable; None] ∅ [])
  = (Ok (Some (Pool None None None None (Some 3306) true 10 0 (Some 20000)
                 (RejectUnauthorized false))),
     World ∅ 0 [] ∅
       [ConsoleError (ConnectionFailed 1 3 StoreUnavailable);
        ConsoleLog (Retrying 3000); SetTimeout 3000;
        ConsoleError (ConnectionFailed 2 3 StoreUnavailable);
        ConsoleLog (Retrying 3000); SetTimeout 3000;
        ConsoleLog (Connected 3)]).
Proof.
  refine (eq_trans
            (proj1 (connectWithRetry_fails_then_succeeds
                      (Backend.createPool ∅) _ 3 3000
                      [StoreUnavailable; StoreUnavailable] []
                      (World ∅ 0 [Some StoreUnavailable; Some StoreUnavailable; None]
                             ∅ [])
                      (fun w _ => eq_refl) eq_refl) _) _).
  - simpl. lia.
  - reflexivity.
Defined.

(** C9: with [retries <= 0] the loop of [connectWithRetry] makes no
    attempt: no pool is created, no query sent, nothing logged, and the
    call resolves to [undefined], neither a pool nor a rejection. *)
Theorem connectWithRetry_no_attempts
    (createPool : M pool) (retries : Z) (delay : option Z) (w : world) :
  retries <= 0 ->
  connectWithRetry createPool (Some retries) delay w = (Ok None, w).
Proof.
  intros Hle. unfold connectWithRetry, attempt_numbers. simpl default.
  replace (Z.to_nat retries) with O by lia. reflexivity.
Qed.

Lemma connectWithRetry_no_attempts_witness :
  connectWithRetry (Backend.createPool ∅) (Some 0) None (World ∅ 0 [] ∅ [])
  = (Ok None, World ∅ 0 [] ∅ []).
Proof.
  apply connectWithRetry_no_attempts. lia.
Defined.

(** ** Validation of a create request *)

Lemma absent_or_empty_falsy (body : gmap string jsval) (k : string) :
  absent_or_empty body k -> truthy (prop body k) = false.
Proof. unfold prop. intros [-> | ->]; reflexivity. Qed.

Lemma truthy_present (body : gmap string jsval) (k : string) :
  truthy (prop body k) = true -> ~ absent_or_empty body k.
Proof.
  intros Ht Ha. rewrite (absent_or_empty_falsy _ _ Ha) in Ht. discriminate.
Qed.

Lemma Backend_addstudent_falsy (body : gmap string jsval) (w : world) :
  truthy (prop body "name") && truthy (prop body "rollNo")
    && truthy (prop body "class") = false ->
  Backend.addstudent body w
  = (Ok (Response 400
           (error_json "Invalid payload: name, rollNo, class required")), w).
Proof.
  intros H. unfold Backend.addstudent.
  destruct (truthy (prop body "name")), (truthy (prop body "rollNo")),
    (truthy (prop body "class")); try discriminate H; reflexivity.
Qed.

Lemma Backend_addteacher_falsy (body : gmap string jsval) (w : world) :
  truthy (prop body "name") && truthy (prop body "subject")
    && truthy (prop body "class") = false ->
  Backend.addteacher body w
  = (Ok (Response 400 (error_json "Invalid payload")), w).
Proof.
  intros H. unfold Backend.addteacher.
  destruct (truthy (prop body "name")), (truthy (prop body "subject")),
    (truthy (prop body "class")); try discriminate H; reflexivity.
Qed.

Lemma Variant_addstudent_status (body : gmap string jsval) (w : world) r :
  fst (Variant.addstudent body w) = Ok r -> status r = 200.
Proof.
  unfold Variant.addstudent, Variant.getLastStudentID, bind, res_json, ret.
  destruct (query (SELECT_MAX_ID "student") w) as [[last|e] w1]; simpl;
    [|discriminate].
  destruct (query _ w1) as [[[]|e] w2]; simpl; [|discriminate].
  intros [= <-]. reflexivity.
Qed.

Lemma Variant_addteacher_status (body : gmap string jsval) (w : world) r :
  fst (Variant.addteacher body w) = Ok r -> status r = 200.
Proof.
  unfold Variant.addteacher, Variant.getLastTeacherID, bind, res_json, ret.
  destruct (query (SELECT_MAX_ID "teacher") w) as [[last|e] w1]; simpl;
    [|discriminate].
  destruct (query _ w1) as [[[]|e] w2]; simpl; [|discriminate].
  intros [= <-]. reflexivity.
Qed.

(** C2, as the code has it: in [backend/server.js] a create request with a
    required field absent or empty is answered 400 and nothing is sent to
    the store, so a table changes only when all three fields are present
    and non-empty; [part_000] makes no such check and never answers 400. *)
Theorem create_checks_required_fields (body : gmap string jsval) (w : world) :
  (absent_or_empty body "name" \/ absent_or_empty body "rollNo"
   \/ absent_or_empty body "class" ->
   Backend.handle (POST_addstudent body) w
   = (Ok (Response 400
            (error_json "Invalid payload: name, rollNo, class required")), w)) /\
  (absent_or_empty body "name" \/ absent_or_empty body "subject"
   \/ absent_or_empty body "class" ->
   Backend.handle (POST_addteacher body) w
   = (Ok (Response 400 (error_json "Invalid payload")), w)) /\
  (tables (snd (Backend.handle (POST_addstudent body) w)) <> tables w ->
   ~ absent_or_empty body "name" /\ ~ absent_or_empty body "rollNo"
   /\ ~ absent_or_empty body "class") /\
  (tables (snd (Backend.handle (POST_addteacher body) w)) <> tables w ->
   ~ absent_or_empty body "name" /\ ~ absent_or_empty body "subject"
   /\ ~ absent_or_empty body "class") /\
  (forall b, fst (Variant.handle (POST_addstudent body) w) <> Ok (Response 400 b)) /\
  (forall b, fst (Variant.handle (POST_addteacher body) w) <> Ok (Response 400 b)).
Proof.
  simpl. repeat split.
  - intros H. apply Backend_addstudent_falsy.
    destruct H as [H|[H|H]]; rewrite (absent_or_empty_falsy _ _ H);
      rewrite ?andb_false_r; reflexivity.
  - intros H. apply Backend_addteacher_falsy.
    destruct H as [H|[H|H]]; rewrite (absent_or_empty_falsy _ _ H);
      rewrite ?andb_false_r; reflexivity.
  - apply truthy_present. destruct (truthy (prop body "name")) eqn:E; [reflexivity|].
    exfalso. apply H. rewrite Backend_addstudent_falsy; [reflexivity|].
    rewrite E. reflexivity.
  - apply truthy_present. destruct (truthy (prop body "rollNo")) eqn:E; [reflexivity|].
    exfalso. apply H. rewrite Backend_addstudent_falsy; [reflexivity|].
    rewrite E, andb_false_r. reflexivity.
  - apply truthy_present. destruct (truthy (prop body "class")) eqn:E; [reflexivity|].
    exfalso. apply H. rewrite Backend_addstudent_falsy; [reflexivity|].
    rewrite E, andb_false_r. reflexivity.
  - apply truthy_present. destruct (truthy (prop body "name")) eqn:E; [reflexivity|].
    exfalso. apply H. rewrite Backend_addteacher_falsy; [reflexivity|].
    rewrite E. reflexivity.
  - apply truthy_present. destruct (truthy (prop body "subject")) eqn:E; [reflexivity|].
    exfalso. apply H. rewrite Backend_addteacher_falsy; [reflexivity|].
    rewrite E, andb_false_r. reflexivity.
  - apply truthy_present. destruct (truthy (prop body "class")) eqn:E; [reflexivity|].
    exfalso. apply H. rewrite Backend_addteacher_falsy; [reflexivity|].
    rewrite E, andb_false_r. reflexivity.
  - intros b Hb. apply Variant_addstudent_status in Hb. discriminate Hb.
  - intros b Hb. apply Variant_addteacher_status in Hb. discriminate Hb.
Qed.

Lemma create_checks_required_fields_witness :
  Backend.handle (POST_addstudent {["name" := JStr "Ann"; "class" := JStr "5A"]})
    (backend_world [] 1)
  = (Ok (Response 400
           (error_json "Invalid payload: name, rollNo, class required")),
     backend_world [] 1).
Proof.
  apply (proj1 (create_checks_required_fields
                  {["name" := JStr "Ann"; "class" := JStr "5A"]}
                  (backend_world [] 1))).
  right. left. left. reflexivity.
Defined.

(** C2 fails on [part_000]: a student without [rollNo] is inserted, with
    NULL for the roll number, and the answer is 200. *)
Lemma Variant_inserts_student_without_rollNo :
  absent_or_empty {["name" := JStr "Ann"; "class" := JStr "5A"]} "rollNo" /\
  fst (Variant.handle
         (POST_addstudent {["name" := JStr "Ann"; "class" := JStr "5A"]})
         (variant_world [] 1))
  = Ok (Response 200 (message_json "Student added successfully")) /\
  rows_of "student" (variant_world [] 1) = [] /\
  rows_of "student"
    (snd (Variant.handle
            (POST_addstudent {["name" := JStr "Ann"; "class" := JStr "5A"]})
            (variant_world [] 1)))
  = [Row 1 [("name", SqlText "Ann"); ("roll_number", SqlNull);
            ("class", SqlText "5A"); ("created_at", SqlInt 0)]].
Proof.
  split; [left; reflexivity|]. repeat split; vm_compute; reflexivity.
Qed.

(** ** Store errors in the handlers *)

Lemma next_fault_Some (w : world) (e : error) :
  next_fault w = Some e -> exists fs, faults w = Some e :: fs.
Proof.
  unfold next_fault. destruct (faults w) as [|[e'|] fs]; intros [=].
  subst. eauto.
Qed.

(** C10, as the code has it: when the store rejects its query, a list
    route (GET /, /student, /teacher) of either file sends no response and
    the rejection leaves the handler; the create and delete handlers of
    [backend/server.js] catch it and answer 500, those of [part_000] have
    no error branch either and are rejected the same way. *)
Theorem list_routes_have_no_error_branch
    (req : request) (w : world) (e : error) :
  next_fault w = Some e ->
  (is_list_request req = true ->
   Backend.handle req w = (Err e, after_queries 1 w) /\
   Variant.handle req w = (Err e, after_queries 1 w)) /\
  (is_write_request req = true ->
   forallb truthy (required_fields req) = true ->
   fst (Backend.handle req w)
   = Ok (Response 500 (error_json "Internal server error")) /\
   tables (snd (Backend.handle req w)) = tables w /\
   Variant.handle req w = (Err e, after_queries 1 w)).
Proof.
  intros Hnext. destruct (next_fault_Some w e Hnext) as [fs Hf].
  split.
  - destruct req; intros [=]; simpl;
      unfold get_root, get_student, get_teacher, bind, query, after_queries;
      rewrite Hf; auto.
  - destruct req; intros [=] Hfields; simpl in Hfields |- *;
      try (apply andb_prop in Hfields as [H1 Hfields];
           apply andb_prop in Hfields as [H2 Hfields];
           apply andb_prop in Hfields as [H3 _]);
      unfold Backend.addstudent, Backend.addteacher, Backend.delete_student,
        Backend.delete_teacher, Variant.addstudent, Variant.addteacher,
        Variant.getLastStudentID, Variant.getLastTeacherID,
        Variant.delete_student, Variant.delete_teacher,
        try_catch, bind, query, after_queries;
      rewrite ?H1, ?H2, ?H3; simpl; rewrite Hf; simpl; auto.
Qed.

Lemma list_routes_have_no_error_branch_witness :
  Backend.handle GET_student (World ∅ 0 [Some StoreUnavailable] ∅ [])
  = (Err StoreUnavailable,
     after_queries 1 (World ∅ 0 [Some StoreUnavailable] ∅ [])) /\
  Variant.handle GET_student (World ∅ 0 [Some StoreUnavailable] ∅ [])
  = (Err StoreUnavailable,
     after_queries 1 (World ∅ 0 [Some StoreUnavailable] ∅ [])).
Proof.
  apply (proj1 (list_routes_have_no_error_branch GET_student
                  (World ∅ 0 [Some StoreUnavailable] ∅ [])
                  StoreUnavailable eq_refl)).
  reflexivity.
Defined.

(** C10 fails on [part_000]: its delete handler does not catch the store's
    error; no 500 is sent. *)
Lemma Variant_delete_does_not_answer_500 :
  fst (Variant.handle (DELETE_student 1)
         (World ∅ 0 [Some StoreUnavailable] ∅ []))
  = Err StoreUnavailable /\
  forall r, fst (Variant.handle (DELETE_student 1)
                   (World ∅ 0 [Some StoreUnavailable] ∅ [])) <> Ok r.
Proof.
  split; [reflexivity|]. intros r. discriminate.
Qed.

(** ** The port of the connection *)

Lemma digit_of_digit (d : Z) :
  0 <= d < 10 -> digit_of (Ascii.ascii_of_nat (48 + Z.to_nat d)) = Some d.
Proof.
  intros Hd. rewrite <- (Z2Nat.id d) at 2 by lia.
  assert (Hn : (Z.to_nat d < 10)%nat) by lia.
  destruct (Z.to_nat d) as [|[|[|[|[|[|[|[|[|[|n]]]]]]]]]];
    try reflexivity; lia.
Qed.

Lemma digits_value_digits_of_pos (fuel : nat) :
  forall (n : Z) (acc : string),
    0 <= n < 10 ^ Z.of_nat fuel ->
    digits_value (digits_of_pos fuel n acc) 0 = digits_value acc n.
Proof.
  induction fuel as [|fuel IH]; intros n acc Hn.
  - simpl in *. replace n with 0 by lia. reflexivity.
  - cbn [digits_of_pos].
    assert (Hmod : 0 <= n mod 10 < 10) by (apply Z.mod_pos_bound; lia).
    destruct (n <? 10) eqn:Hsmall.
    + apply Z.ltb_lt in Hsmall. cbn [digits_value].
      rewrite (digit_of_digit _ Hmod). rewrite Z.mod_small by lia.
      reflexivity.
    + apply Z.ltb_ge in Hsmall. rewrite IH.
      * cbn [digits_value]. rewrite (digit_of_digit _ Hmod).
        f_equal. pose proof (Z.div_mod n 10). lia.
      * rewrite Nat2Z.inj_succ, Z.pow_succ_r in Hn by lia.
        split; [apply Z.div_pos; lia|].
        apply Z.div_lt_upper_bound; lia.
Qed.

Lemma digits_of_pos_nonempty (fuel : nat) :
  forall (n : Z) (acc : string),
    (0 < fuel)%nat -> digits_of_pos fuel n acc <> "".
Proof.
  induction fuel as [|fuel IH]; intros n acc Hfuel; [lia|].
  cbn [digits_of_pos]. destruct (n <? 10); [discriminate|].
  destruct fuel as [|fuel]; [discriminate|]. apply IH. lia.
Qed.

Lemma decimal_fuel (n : Z) :
  0 <= n -> n < 10 ^ Z.of_nat (S (Z.to_nat (Z.log2 n))).
Proof.
  intros Hn. pose proof (Z.log2_nonneg n) as Hlog.
  rewrite Nat2Z.inj_succ, Z2Nat.id by lia.
  destruct (Z.eq_dec n 0) as [->|Hne]; [reflexivity|].
  pose proof (Z.log2_spec n ltac:(lia)) as [_ Hup].
  eapply Z.lt_le_trans; [exact Hup|].
  apply Z.pow_le_mono_l. lia.
Qed.

(** Round trip: [Number] reads back the decimal text of a natural
    number. *)
Lemma Number_decimal (n : Z) : 0 <= n -> Number (decimal n) = Some n.
Proof.
  intros Hn. unfold decimal.
  destruct (n <? 0) eqn:Hneg; [apply Z.ltb_lt in Hneg; lia|].
  assert (HN : forall s, Number s = digits_value s 0) by (intros []; reflexivity).
  rewrite HN, digits_value_digits_of_pos
    by (split; [exact Hn | apply decimal_fuel; exact Hn]).
  reflexivity.
Qed.

Lemma decimal_nonempty (n : Z) : 0 <= n -> decimal n <> "".
Proof.
  intros Hn. unfold decimal.
  destruct (n <? 0) eqn:Hneg; [apply Z.ltb_lt in Hneg; lia|].
  apply digits_of_pos_nonempty. lia.
Qed.

(** A pool [connectWithRetry] returns is one [createPool] built. *)
Lemma attempts_loop_pool (createPool : M pool) (retries delay : Z)
    (attempts : list Z) :
  forall (w w' : world) (p : pool),
    attempts_loop createPool retries delay attempts w = (Ok (Some p), w') ->
    exists w0 w1, createPool w0 = (Ok p, w1).
Proof.
  induction attempts as [|attempt rest IH]; intros w w' p; simpl.
  - intros [=].
  - unfold try_catch at 1. unfold bind at 1.
    destruct (createPool w) as [[p0|e] w1] eqn:Hcp.
    + unfold bind at 1. destruct (query SELECT_1 w1) as [[[]|e] w2].
      * intros [= <- _]. eauto.
      * unfold bind at 1. unfold emit at 1.
        destruct (attempt =? retries); [intros [=]|].
        unfold bind at 1. unfold emit at 1. unfold bind at 1. unfold emit at 1.
        apply IH.
    + unfold bind at 1. unfold emit at 1.
      destruct (attempt =? retries); [intros [=]|].
      unfold bind at 1. unfold emit at 1. unfold bind at 1. unfold emit at 1.
      apply IH.
Qed.

Lemma main_serves_created_pool (createPool : M pool)
    (ensureTables : option pool -> M unit)
    (env : gmap string string) (w w' : world) (db : pool) :
  main createPool ensureTables env w = (Serving (Some db), w') ->
  exists w0 w1, createPool w0 = (Ok db, w1).
Proof.
  unfold main. destruct (check_env env REQUIRED_ENV_VARS w) as [[code|] w1];
    [intros [=]|].
  unfold init. unfold bind at 1.
  destruct (connectWithRetry createPool None None w1) as [[odb|e] w2] eqn:Hc;
    [|intros [=]].
  unfold bind at 1. destruct (ensureTables odb w2) as [[[]|e] w3];
    [|intros [=]].
  unfold bind, emit, ret. intros [= -> _].
  apply (attempts_loop_pool _ _ _ _ _ _ _ Hc).
Qed.

(** C8, as the code has it: the pool [backend/server.js] serves from is on
    port 3306 when DB_PORT is unset and on port n when DB_PORT is the
    decimal text of n; the pool of [part_000] is on port 3306 whatever
    DB_PORT is. *)
Theorem DB_PORT_selects_the_port
    (env : gmap string string) (w w' : world) (db : pool) :
  (Backend.main env w = (Serving (Some db), w') ->
   (env !! "DB_PORT" = None -> port db = Some 3306) /\
   (forall n, 0 <= n -> env !! "DB_PORT" = Some (decimal n) ->
              port db = Some n)) /\
  (Variant.main env w = (Serving (Some db), w') -> port db = Some 3306).
Proof.
  split.
  - intros Hmain.
    destruct (main_serves_created_pool _ _ _ _ _ _ Hmain) as (w0 & w1 & Hcp).
    unfold Backend.createPool, ret in Hcp. injection Hcp as <- _. simpl.
    split.
    + intros ->. reflexivity.
    + intros n Hn ->. unfold env_or.
      destruct (String.eqb_spec (decimal n) "") as [Hempty|_].
      * exfalso. exact (decimal_nonempty n Hn Hempty).
      * apply Number_decimal. exact Hn.
  - intros Hmain.
    destruct (main_serves_created_pool _ _ _ _ _ _ Hmain) as (w0 & w1 & Hcp).
    unfold Variant.createPool, bind, Variant.readFileSync, ret in Hcp.
    destruct (files w0 !! "/app/global-bundle.pem"); [|discriminate Hcp].
    injection Hcp as <- _. reflexivity.
Qed.

Lemma DB_PORT_selects_the_port_witness :
  port (Pool (Some "db") (Some "root") (Some "secret") (Some "school")
             (Some 3307) true 10 0 (Some 20000) (RejectUnauthorized false))
  = Some 3307.
Proof.
  refine (proj2 (proj1 (DB_PORT_selects_the_port
                          {["DB_HOST" := "db"; "DB_USER" := "root";
                            "DB_PASSWORD" := "secret"; "DB_NAME" := "school";
                            "DB_PORT" := "3307"]}
                          (World ∅ 0 [] ∅ []) _ _) _) 3307 _ _).
  - vm_compute. reflexivity.
  - lia.
  - vm_compute. reflexivity.
Defined.

(** C8 fails on [part_000]: with DB_PORT set to 3307 the pool it serves
    from is on port 3306. *)
Lemma Variant_ignores_DB_PORT :
  ({["DB_HOST" := "db"; "DB_USER" := "root"; "DB_PASSWORD" := "secret";
     "DB_NAME" := "school"; "DB_PORT" := "3307"]} : gmap string string)
    !! "DB_PORT" = Some "3307" /\
  Number "3307" = Some 3307 /\
  fst (Variant.main
         {["DB_HOST" := "db"; "DB_USER" := "root"; "DB_PASSWORD" := "secret";
           "DB_NAME" := "school"; "DB_PORT" := "3307"]}
         (World ∅ 0 [] {["/app/global-bundle.pem" := "ca"]} []))
  = Serving (Some (Pool (Some "db") (Some "root") (Some "secret")
                        (Some "school") (Some 3306) true 10 0 None
                        (CertificateAuthority "ca"))).
Proof.
  repeat split; vm_compute; reflexivity.
Qed.

(** ** Keys in a well-formed table *)

Lemma increasing_from_weaken (l : list Z) :
  forall lo lo', lo' <= lo ->
    increasing_from lo l = true -> increasing_from lo' l = true.
Proof.
  destruct l as [|i l]; intros lo lo' Hle; simpl; [reflexivity|].
  intros H. apply andb_prop in H as [H1 H2]. apply Z.ltb_lt in H1.
  rewrite H2, andb_true_r. apply Z.ltb_lt. lia.
Qed.

Lemma increasing_from_above (l : list Z) :
  forall lo, increasing_from lo l = true -> Forall (fun i => lo < i) l.
Proof.
  induction l as [|i l IH]; intros lo; simpl; [constructor|].
  intros H. apply andb_prop in H as [H1 H2]. apply Z.ltb_lt in H1.
  constructor; [exact H1|].
  eapply Forall_impl; [apply (IH i H2)|]. simpl. intros. lia.
Qed.

Lemma increasing_from_filter (P : row -> bool) (rows : list row) :
  forall lo, increasing_from lo (map row_id rows) = true ->
    increasing_from lo (map row_id (List.filter P rows)) = true.
Proof.
  induction rows as [|r rows IH]; intros lo; simpl; [reflexivity|].
  intros H. apply andb_prop in H as [H1 H2].
  destruct (P r); simpl.
  - rewrite H1. apply IH. exact H2.
  - apply IH. apply Z.ltb_lt in H1.
    apply (increasing_from_weaken _ (row_id r)); [lia|exact H2].
Qed.

Lemma increasing_from_app (l1 l2 : list Z) (i : Z) :
  forall lo, increasing_from lo (l1 ++ [i]) = true ->
    increasing_from i l2 = true ->
    increasing_from lo (l1 ++ i :: l2) = true.
Proof.
  induction l1 as [|j l1 IH]; intros lo; simpl.
  - intros H H2. rewrite andb_true_r in H. rewrite H, H2. reflexivity.
  - intros H H2. apply andb_prop in H as [H1 H3]. rewrite H1. simpl.
    apply IH; assumption.
Qed.

Lemma increasing_from_Sorted (l : list Z) :
  forall lo, increasing_from lo l = true -> Sorted Z.le l.
Proof.
  induction l as [|i l IH]; intros lo; simpl; [constructor|].
  intros H. apply andb_prop in H as [_ H2].
  constructor; [apply (IH i H2)|].
  destruct l as [|j l]; constructor.
  simpl in H2. apply andb_prop in H2 as [H2 _]. apply Z.ltb_lt in H2. lia.
Qed.

(** On a table in key order, ORDER BY id returns the keys as stored. *)
Lemma ids_ordered_increasing (rows : list row) (lo : Z) :
  increasing_from lo (map row_id rows) = true ->
  ids_ordered rows = map row_id rows.
Proof.
  intros H. unfold ids_ordered.
  apply (Sorted_unique Z.le).
  - apply Sorted_merge_sort. intros x y. lia.
  - apply (increasing_from_Sorted _ lo H).
  - apply merge_sort_Permutation.
Qed.

Lemma has_key_false (id : Z) (rows : list row) :
  Forall (fun r => row_id r <> id) rows -> has_key id rows = false.
Proof.
  unfold has_key. induction 1 as [|r rows Hr _ IH]; simpl; [reflexivity|].
  rewrite IH, orb_false_r. apply Z.eqb_neq. exact Hr.
Qed.

Lemma has_key_app (id : Z) (l1 l2 : list row) :
  has_key id (l1 ++ l2) = has_key id l1 || has_key id l2.
Proof. unfold has_key. apply existsb_app. Qed.

Lemma map_rekey_other (new old : Z) (rows : list row) :
  Forall (fun r => row_id r <> old) rows ->
  map (fun r => if row_id r =? old then Row new (row_cells r) else r) rows
  = rows.
Proof.
  induction 1 as [|r rows Hr _ IH]; simpl; [reflexivity|].
  rewrite IH. apply Z.eqb_neq in Hr. rewrite Hr. reflexivity.
Qed.

(** ** Renumbering after a delete ([part_000]) *)

Lemma table_eta (t : table) (rows : list row) :
  t_rows t = rows -> Table (t_columns t) rows (t_auto_increment t) = t.
Proof. destruct t. simpl. intros ->. reflexivity. Qed.

Lemma set_tables_same (w : world) : set_tables (tables w) w = w.
Proof. destruct w. reflexivity. Qed.

Lemma query_available {A} (stmt : statement A) (w : world) :
  faults w = [] ->
  query stmt w =
    match stmt (tables w) (clock w) with
    | Ok (a, ts) => (Ok a, set_tables ts w)
    | Err e => (Err e, w)
    end.
Proof.
  intros Hf. unfold query. rewrite Hf. simpl.
  assert (Hw : set_faults [] w = w).
  { destruct w. simpl in Hf. subst. reflexivity. }
  rewrite Hw. reflexivity.
Qed.

(** One UPDATE of the renumbering: the rows before [r] already carry keys
    up to [k], and [r] takes the key [k + 1]. *)
Lemma update_id_next (t : table) (done todo : list row) (r : row) (k : Z) :
  t_rows t = (done ++ r :: todo)%list ->
  Forall (fun x => row_id x <= k) done ->
  k < row_id r ->
  increasing_from (row_id r) (map row_id todo) = true ->
  row_id r < t_auto_increment t ->
  update_id (k + 1) (row_id r) t
  = Ok (Table (t_columns t)
              (done ++ Row (k + 1) (row_cells r) :: todo)
              (t_auto_increment t)).
Proof.
  intros Hrows Hdone Hk Htodo Hauto. unfold update_id. rewrite Hrows.
  assert (Hold : has_key (row_id r) (done ++ r :: todo) = true).
  { rewrite has_key_app. unfold has_key at 2. simpl.
    rewrite Z.eqb_refl. apply orb_true_r. }
  rewrite Hold. simpl negb. cbv iota.
  apply increasing_from_above in Htodo. rewrite Forall_map in Htodo.
  destruct (k + 1 =? row_id r) eqn:Hsame.
  - apply Z.eqb_eq in Hsame. f_equal. symmetry.
    rewrite Hsame. destruct r as [i cells]. simpl. apply table_eta. exact Hrows.
  - apply Z.eqb_neq in Hsame.
    rewrite has_key_false.
    + f_equal. f_equal.
      * rewrite map_app. simpl. rewrite Z.eqb_refl.
        rewrite !map_rekey_other; [reflexivity| |].
        -- eapply Forall_impl; [exact Htodo|]. simpl. intros. lia.
        -- eapply Forall_impl; [exact Hdone|]. simpl. intros. lia.
      * lia.
    + apply Forall_app. split; [|constructor].
      * eapply Forall_impl; [exact Hdone|]. simpl. intros. lia.
      * lia.
      * eapply Forall_impl; [exact Htodo|]. simpl. intros. lia.
Qed.

Lemma renumber_run (name : string) (todo : list row) :
  forall (done : list row) (k : Z) (t : table) (w : world),
    faults w = [] ->
    tables w !! name = Some t ->
    t_rows t = (done ++ todo)%list ->
    Forall (fun x => row_id x <= k) done ->
    increasing_from k (map row_id todo) = true ->
    Forall (fun r => row_id r < t_auto_increment t) todo ->
    exists l,
      promise_all
        (imap (fun j id => query (UPDATE_SET_ID name (Z.of_nat j + k + 1) id))
              (map row_id todo)) w
      = (Ok l,
         set_tables
           (<[name := Table (t_columns t)
                        (done ++ imap (fun j r => Row (Z.of_nat j + k + 1)
                                                      (row_cells r)) todo)
                        (t_auto_increment t)]> (tables w)) w).
Proof.
  induction todo as [|r todo IH]; intros done k t w Hf Ht Hrows Hdone Hinc Hauto.
  - exists []. simpl. unfold ret.
    rewrite (table_eta t _ Hrows), (insert_id _ _ _ Ht), set_tables_same.
    reflexivity.
  - simpl in Hinc. apply andb_prop in Hinc as [Hk Hinc]. apply Z.ltb_lt in Hk.
    inversion Hauto as [|? ? Hr Hauto']; subst.
    cbn [map]. rewrite imap_cons. cbn [promise_all].
    rewrite (query_available _ w Hf).
    unfold UPDATE_SET_ID at 1, write_table at 1. rewrite Ht.
    change (Z.of_nat 0 + k + 1) with (0 + k + 1). rewrite Z.add_0_l.
    rewrite (update_id_next t done todo r k Hrows Hdone Hk Hinc Hr).
    set (t1 := Table (t_columns t) (done ++ Row (k + 1) (row_cells r) :: todo)
                     (t_auto_increment t)).
    set (w1 := set_tables (<[name := t1]> (tables w)) w).
    destruct (IH (done ++ [Row (k + 1) (row_cells r)])%list (k + 1) t1 w1)
      as [l Hl].
    + exact Hf.
    + unfold w1. simpl. apply lookup_insert_eq.
    + unfold t1. simpl. rewrite <- app_assoc. reflexivity.
    + apply Forall_app. split.
      * eapply Forall_impl; [exact Hdone|]. simpl. intros. lia.
      * constructor; [simpl; lia|constructor].
    + apply (increasing_from_weaken _ (row_id r)); [lia|exact Hinc].
    + exact Hauto'.
    + exists (tt :: l).
      rewrite (imap_ext _ (fun j id =>
                 query (UPDATE_SET_ID name (Z.of_nat j + (k + 1) + 1) id))).
      * rewrite Hl. unfold w1, t1. simpl. unfold set_tables. simpl.
        rewrite insert_insert_eq. rewrite <- app_assoc. simpl.
        do 5 f_equal. f_equal; try (f_equal; lia).
        apply imap_ext. intros j x _. simpl. f_equal. lia.
      * intros j x _. simpl. do 2 f_equal. lia.
Qed.

(** ** Well-formed tables under INSERT and DELETE *)

Lemma well_formed_spec (t : table) :
  well_formed t = true <->
  0 < t_auto_increment t /\
  increasing_from 0 (map row_id (t_rows t)) = true /\
  Forall (fun r => row_id r < t_auto_increment t) (t_rows t).
Proof.
  unfold well_formed, ids. rewrite !andb_true_iff, Z.ltb_lt, forallb_forall.
  rewrite Forall_forall.
  split.
  - intros [[H1 H2] H3]. repeat split; try assumption.
    intros r Hr. apply Z.ltb_lt. apply H3. apply in_map.
    apply list_elem_of_In. exact Hr.
  - intros (H1 & H2 & H3). repeat split; try assumption.
    intros i Hi. apply in_map_iff in Hi as (r & <- & Hr).
    apply Z.ltb_lt. apply H3. apply list_elem_of_In. exact Hr.
Qed.

Lemma Forall_filter_rows (P : row -> Prop) (f : row -> bool) (rows : list row) :
  Forall P rows -> Forall P (List.filter f rows).
Proof.
  induction 1 as [|r rows Hr _ IH]; simpl; [constructor|].
  destruct (f r); [constructor|]; assumption.
Qed.

Lemma increasing_from_snoc (l : list Z) (i : Z) :
  forall lo, increasing_from lo l = true ->
    lo < i -> Forall (fun j => j < i) l ->
    increasing_from lo (l ++ [i]) = true.
Proof.
  induction l as [|j l IH]; intros lo; simpl.
  - intros _ Hlo _. rewrite andb_true_r. apply Z.ltb_lt. exact Hlo.
  - intros H Hlo Hall. apply andb_prop in H as [H1 H2].
    inversion Hall; subst. rewrite H1. simpl. apply IH; assumption.
Qed.

Lemma well_formed_delete (id : Z) (t : table) :
  well_formed t = true -> well_formed (delete_where_id id t) = true.
Proof.
  rewrite !well_formed_spec. simpl. intros (H1 & H2 & H3).
  repeat split; [exact H1| |].
  - apply increasing_from_filter. exact H2.
  - apply Forall_filter_rows. exact H3.
Qed.

(** Appending a row under a key [id] at or above the counter. *)
Lemma well_formed_append (t : table) (id : Z) (cells : list (string * sqlval)) :
  well_formed t = true ->
  Forall (fun r => row_id r < id) (t_rows t) -> 0 < id ->
  well_formed (Table (t_columns t) (t_rows t ++ [Row id cells])
                     (Z.max (t_auto_increment t) (id + 1))) = true.
Proof.
  rewrite !well_formed_spec. simpl. intros (H1 & H2 & H3) Hbelow Hpos.
  repeat split; [lia| |].
  - rewrite map_app. simpl. apply increasing_from_snoc; [exact H2|exact Hpos|].
    rewrite Forall_map. exact Hbelow.
  - apply Forall_app. split.
    + eapply Forall_impl; [exact H3|]. simpl. intros. lia.
    + constructor; [simpl; lia|constructor].
Qed.

Lemma table_step_well_formed (t t' : table) :
  table_step t t' -> well_formed t = true -> well_formed t' = true.
Proof.
  intros [|cells|id] Hwf.
  - exact Hwf.
  - replace (t_auto_increment t + 1)
      with (Z.max (t_auto_increment t) (t_auto_increment t + 1)) by lia.
    apply well_formed_append; [exact Hwf| |].
    + apply well_formed_spec in Hwf. tauto.
    + apply well_formed_spec in Hwf. tauto.
  - apply well_formed_delete. exact Hwf.
Qed.

Lemma has_key_filter (id : Z) (rows : list row) :
  has_key id (List.filter (fun r => negb (row_id r =? id)) rows) = false.
Proof.
  unfold has_key. induction rows as [|r rows IH]; simpl; [reflexivity|].
  destruct (row_id r =? id) eqn:E; simpl; [exact IH|]. rewrite E. exact IH.
Qed.

Lemma filter_all (f : row -> bool) (rows : list row) :
  Forall (fun r => f r = true) rows -> List.filter f rows = rows.
Proof.
  induction 1 as [|r rows Hr _ IH]; simpl; [reflexivity|].
  rewrite Hr, IH. reflexivity.
Qed.

(** On distinct keys, the rows of one present key are one row. *)
Lemma length_filter_key (id : Z) (rows : list row) :
  forall lo, increasing_from lo (map row_id rows) = true ->
    has_key id rows = true ->
    S (length (List.filter (fun r => negb (row_id r =? id)) rows))
    = length rows.
Proof.
  unfold has_key.
  induction rows as [|r rows IH]; intros lo; simpl; [discriminate|].
  intros H Hkey. apply andb_prop in H as [_ H].
  destruct (row_id r =? id) eqn:E; simpl.
  - apply Z.eqb_eq in E. rewrite filter_all; [reflexivity|].
    apply increasing_from_above in H. rewrite Forall_map in H.
    eapply Forall_impl; [exact H|]. simpl. intros x Hx.
    apply negb_true_iff. apply Z.eqb_neq. lia.
  - f_equal. apply (IH (row_id r)); assumption.
Qed.

(** ** INSERT as the handlers issue it *)

Lemma truthy_bound (v : jsval) :
  truthy v = true -> exists s, to_varchar (bound v) = SqlText s.
Proof.
  destruct v as [| |[]|n|s]; simpl; intros H; try discriminate H; eauto.
Qed.

(** An INSERT that names no [id] column appends under the counter's key. *)
Lemma insert_into_auto (now : Z) (cols : list string) (vals : list sqlval)
    (t t' : table) :
  assoc "id" (zip cols vals) = None ->
  insert_into now cols vals t = Ok t' ->
  exists cells,
    t' = Table (t_columns t)
               (t_rows t ++ [Row (t_auto_increment t) cells])
               (t_auto_increment t + 1).
Proof.
  intros Hid. unfold insert_into, new_key. rewrite Hid.
  destruct (negb _); [discriminate|].
  destruct (List.find _ cols); [discriminate|].
  destruct (new_cells now (t_columns t) (zip cols vals)) as [cells|e];
    [|discriminate].
  destruct (has_key _ _); [discriminate|].
  intros [= <-]. exists cells. f_equal. lia.
Qed.

Lemma Backend_insert_student (now : Z) (a b c : sqlval) (sa sb sc : string)
    (t : table) :
  t_columns t = Backend.student_columns ->
  well_formed t = true ->
  to_varchar a = SqlText sa -> to_varchar b = SqlText sb ->
  to_varchar c = SqlText sc ->
  insert_into now ["name"; "roll_number"; "class_name"] [a; b; c] t
  = Ok (Table (t_columns t)
              (t_rows t ++ [Row (t_auto_increment t)
                              [("name", SqlText sa); ("roll_number", SqlText sb);
                               ("class_name", SqlText sc);
                               ("created_at", SqlInt now)]])
              (t_auto_increment t + 1)).
Proof.
  intros Hcols Hwf Ha Hb Hc. apply well_formed_spec in Hwf as (H0 & _ & Hbelow).
  unfold insert_into, has_column. rewrite Hcols.
  cbn -[to_varchar has_key Z.max Z.add].
  rewrite Ha, Hb, Hc.
  rewrite has_key_false.
  - f_equal. f_equal. lia.
  - eapply Forall_impl; [exact Hbelow|]. simpl. intros. lia.
Qed.

Lemma fold_left_max_ge (l : list Z) :
  forall a, a <= fold_left Z.max l a /\
            Forall (fun x => x <= fold_left Z.max l a) l.
Proof.
  induction l as [|x l IH]; intros a; simpl; [split; [lia|constructor]|].
  destruct (IH (Z.max a x)) as [H1 H2]. split; [lia|].
  constructor; [lia|exact H2].
Qed.

Lemma fold_left_max_lt (l : list Z) :
  forall a b, a < b -> Forall (fun x => x < b) l -> fold_left Z.max l a < b.
Proof.
  induction l as [|x l IH]; intros a b Ha Hl; simpl; [exact Ha|].
  inversion Hl; subst. apply IH; [lia|assumption].
Qed.

(** The key [part_000] computes for a new row is positive and above every
    key of the table, and not above the counter. *)
Lemma lastID_bounds (t : table) :
  well_formed t = true ->
  0 <= Variant.lastID_or_0 (max_id (t_rows t)) < t_auto_increment t /\
  Forall (fun r => row_id r <= Variant.lastID_or_0 (max_id (t_rows t)))
         (t_rows t).
Proof.
  intros Hwf. apply well_formed_spec in Hwf as (H0 & Hinc & Hbelow).
  destruct (t_rows t) as [|r rows]; simpl; [split; [lia|constructor]|].
  simpl in Hinc. apply andb_prop in Hinc as [Hr _]. apply Z.ltb_lt in Hr.
  inversion Hbelow as [|? ? Hrb Hrest]; subst.
  destruct (fold_left_max_ge (map row_id rows) (row_id r)) as [H1 H2].
  split; [split; [lia|]|].
  - apply fold_left_max_lt; [exact Hrb|]. rewrite Forall_map. exact Hrest.
  - constructor; [exact H1|]. rewrite Forall_map in H2. exact H2.
Qed.

Lemma Variant_insert_student (now next : Z) (a b c : sqlval) (t : table) :
  t_columns t = Variant.student_columns ->
  well_formed t = true ->
  next = Variant.lastID_or_0 (max_id (t_rows t)) + 1 ->
  insert_into now ["id"; "name"; "roll_number"; "class"]
    [SqlInt next; a; b; c] t
  = Ok (Table (t_columns t)
              (t_rows t ++ [Row next
                              [("name", to_varchar a);
                               ("roll_number", to_varchar b);
                               ("class", to_varchar c);
                               ("created_at", SqlInt now)]])
              (Z.max (t_auto_increment t) (next + 1))).
Proof.
  intros Hcols Hwf ->. destruct (lastID_bounds t Hwf) as [[Hlo Hhi] Hall].
  unfold insert_into, has_column, new_key. rewrite Hcols.
  cbn -[to_varchar has_key Z.max Z.add Z.eqb].
  destruct (Z.eqb_spec (Variant.lastID_or_0 (max_id (t_rows t)) + 1) 0) as [|_];
    [lia|].
  rewrite has_key_false.
  - destruct (to_varchar a), (to_varchar b), (to_varchar c); reflexivity.
  - eapply Forall_impl; [exact Hall|]. simpl. intros. lia.
Qed.

(** ** The create handlers on a store that serves them *)

Lemma Backend_addstudent_run (body : gmap string jsval) (w : world) (t : table) :
  next_fault w = None ->
  tables w !! "student" = Some t ->
  t_columns t = Backend.student_columns ->
  well_formed t = true ->
  forallb truthy (required_fields (POST_addstudent body)) = true ->
  Backend.addstudent body w
  = (Ok (Response 201 (message_json "Student added successfully")),
     set_tables
       (<["student" :=
            Table (t_columns t)
                  (t_rows t
                     ++ [Row (t_auto_increment t)
                           [("name", to_varchar (bound (prop body "name")));
                            ("roll_number", to_varchar (bound (prop body "rollNo")));
                            ("class_name", to_varchar (bound (prop body "class")));
                            ("created_at", SqlInt (clock w))]])
                  (t_auto_increment t + 1)]> (tables w))
       (after_queries 1 w)).
Proof.
  intros Hnext Ht Hcols Hwf Hfields. simpl in Hfields.
  apply andb_prop in Hfields as [H1 Hfields].
  apply andb_prop in Hfields as [H2 Hfields].
  apply andb_prop in Hfields as [H3 _].
  unfold Backend.addstudent. rewrite H1, H2, H3. simpl.
  destruct (truthy_bound _ H1) as [sa Ha], (truthy_bound _ H2) as [sb Hb],
    (truthy_bound _ H3) as [sc Hc].
  unfold try_catch, bind. rewrite (query_served _ w Hnext).
  unfold INSERT_INTO, write_table. rewrite Ht.
  rewrite (Backend_insert_student _ _ _ _ sa sb sc t Hcols Hwf Ha Hb Hc).
  rewrite Ha, Hb, Hc. reflexivity.
Qed.

Lemma Variant_addstudent_run (body : gmap string jsval) (w : world) (t : table) :
  faults w = [] ->
  tables w !! "student" = Some t ->
  t_columns t = Variant.student_columns ->
  well_formed t = true ->
  Variant.addstudent body w
  = (Ok (Response 200 (message_json "Student added successfully")),
     set_tables
       (<["student" :=
            Table (t_columns t)
                  (t_rows t
                     ++ [Row (Variant.lastID_or_0 (max_id (t_rows t)) + 1)
                           [("name", to_varchar (bound (prop body "name")));
                            ("roll_number", to_varchar (bound (prop body "rollNo")));
                            ("class", to_varchar (bound (prop body "class")));
                            ("created_at", SqlInt (clock w))]])
                  (Z.max (t_auto_increment t)
                         (Variant.lastID_or_0 (max_id (t_rows t)) + 1 + 1))]>
          (tables w))
       w).
Proof.
  intros Hf Ht Hcols Hwf.
  unfold Variant.addstudent, Variant.getLastStudentID.
  unfold bind at 1. unfold bind at 1. rewrite (query_available _ w Hf).
  unfold SELECT_MAX_ID, read_table. rewrite Ht, set_tables_same.
  unfold ret at 1. unfold bind at 1. rewrite (query_available _ w Hf).
  unfold INSERT_INTO, write_table. rewrite Ht.
  rewrite (Variant_insert_student _ _ _ _ _ t Hcols Hwf eq_refl).
  reflexivity.
Qed.

(** ** The delete handlers on a store that serves them *)

Lemma Backend_delete_run (name : string) (id : Z) (w : world) (t : table)
    (ok : json) (h : error -> M response) :
  next_fault w = None ->
  tables w !! name = Some t ->
  try_catch (query (DELETE_WHERE_ID name id) ;; res_json ok) h w
  = (Ok (Response 200 ok),
     set_tables (<[name := delete_where_id id t]> (tables w))
                (after_queries 1 w)).
Proof.
  intros Hnext Ht. unfold try_catch, bind. rewrite (query_served _ w Hnext).
  unfold DELETE_WHERE_ID, write_table. rewrite Ht. reflexivity.
Qed.

Lemma Variant_delete_run (name : string) (id : Z) (w : world) (t : table)
    (ok : json) :
  faults w = [] ->
  tables w !! name = Some t ->
  well_formed t = true ->
  (query (DELETE_WHERE_ID name id) ;;
   rows <- query (SELECT_ID_ORDER_BY_ID name) ;;
   promise_all (Variant.renumber name rows) ;;
   res_json ok) w
  = (Ok (Response 200 ok),
     set_tables
       (<[name := Table (t_columns t)
                        (renumbered (t_rows (delete_where_id id t)))
                        (t_auto_increment t)]> (tables w)) w).
Proof.
  intros Hf Ht Hwf.
  pose proof (well_formed_delete id t Hwf) as Hwf1.
  apply well_formed_spec in Hwf1 as (_ & Hinc & Hbelow).
  set (t1 := delete_where_id id t) in *.
  set (w1 := set_tables (<[name := t1]> (tables w)) w).
  assert (Ht1 : tables w1 !! name = Some t1) by apply lookup_insert_eq.
  unfold bind at 1. rewrite (query_available _ w Hf).
  unfold DELETE_WHERE_ID, write_table. rewrite Ht. fold t1. fold w1.
  unfold bind at 1. rewrite (query_available _ w1 Hf).
  unfold SELECT_ID_ORDER_BY_ID, read_table. rewrite Ht1, set_tables_same.
  rewrite (ids_ordered_increasing _ 0 Hinc).
  unfold Variant.renumber.
  destruct (renumber_run name (t_rows t1) [] 0 t1 w1 Hf Ht1 eq_refl
              (List.Forall_nil _) Hinc Hbelow) as [l Hl].
  unfold bind at 1.
  rewrite (imap_ext _ (fun j i => query (UPDATE_SET_ID name (Z.of_nat j + 0 + 1) i)))
    by (intros j x _; simpl; do 2 f_equal; lia).
  rewrite Hl. unfold res_json, ret, w1, set_tables. simpl.
  rewrite insert_insert_eq. do 4 f_equal.
  apply imap_ext. intros j x _. simpl. f_equal. lia.
Qed.

(** C1, as the code has it: when the store serves it, DELETE /student/:id
    (and /teacher/:id) of [backend/server.js] answers 200 whether or not a
    row has that key, removes the rows of that key and leaves every other
    row, key and table as it was; in [part_000], on a well-formed table, it
    answers 200 as well but then gives the remaining rows the keys 1, 2,
    ... in key order. *)
Theorem delete_by_identifier (id : Z) (w : world) (t : table) :
  (next_fault w = None ->
   (tables w !! "student" = Some t ->
    Backend.handle (DELETE_student id) w
    = (Ok (Response 200 (message_json "Student deleted successfully")),
       set_tables
         (<["student" :=
              Table (t_columns t)
                    (List.filter (fun r => negb (row_id r =? id)) (t_rows t))
                    (t_auto_increment t)]> (tables w))
         (after_queries 1 w))) /\
   (tables w !! "teacher" = Some t ->
    Backend.handle (DELETE_teacher id) w
    = (Ok (Response 200 (message_json "Teacher deleted successfully")),
       set_tables
         (<["teacher" :=
              Table (t_columns t)
                    (List.filter (fun r => negb (row_id r =? id)) (t_rows t))
                    (t_auto_increment t)]> (tables w))
         (after_queries 1 w)))) /\
  (faults w = [] -> well_formed t = true ->
   (tables w !! "student" = Some t ->
    Variant.handle (DELETE_student id) w
    = (Ok (Response 200 (message_json "Student deleted successfully")),
       set_tables
         (<["student" :=
              Table (t_columns t)
                    (renumbered
                       (List.filter (fun r => negb (row_id r =? id)) (t_rows t)))
                    (t_auto_increment t)]> (tables w))
         w)) /\
   (tables w !! "teacher" = Some t ->
    Variant.handle (DELETE_teacher id) w
    = (Ok (Response 200 (message_json "Teacher deleted successfully")),
       set_tables
         (<["teacher" :=
              Table (t_columns t)
                    (renumbered
                       (List.filter (fun r => negb (row_id r =? id)) (t_rows t)))
                    (t_auto_increment t)]> (tables w))
         w))).
Proof.
  split.
  - intros Hnext. split; intros Ht.
    + apply (Backend_delete_run "student" id w t _ _ Hnext Ht).
    + apply (Backend_delete_run "teacher" id w t _ _ Hnext Ht).
  - intros Hf Hwf. split; intros Ht.
    + apply (Variant_delete_run "student" id w t _ Hf Ht Hwf).
    + apply (Variant_delete_run "teacher" id w t _ Hf Ht Hwf).
Qed.

Lemma delete_by_identifier_witness :
  Backend.handle (DELETE_student 9)
    (backend_world [backend_student 1 "Ann"; backend_student 2 "Bob"] 3)
  = (Ok (Response 200 (message_json "Student deleted successfully")),
     backend_world [backend_student 1 "Ann"; backend_student 2 "Bob"] 3).
Proof.
  refine (eq_trans
            (proj1 (proj1 (delete_by_identifier 9
                             (backend_world [backend_student 1 "Ann";
                                             backend_student 2 "Bob"] 3)
                             (Table Backend.student_columns
                                    [backend_student 1 "Ann";
                                     backend_student 2 "Bob"] 3))
                          eq_refl) eq_refl) _).
  vm_compute. reflexivity.
Defined.

(** C1 fails on [part_000]: deleting student 1 of three changes the keys
    of the two others, 2 to 1 and 3 to 2. *)
Lemma Variant_delete_renumbers_other_rows :
  rows_of "student"
    (variant_world [variant_student 1 "Ann"; variant_student 2 "Bob";
                    variant_student 3 "Cy"] 4)
  = [variant_student 1 "Ann"; variant_student 2 "Bob"; variant_student 3 "Cy"] /\
  fst (Variant.handle (DELETE_student 1)
         (variant_world [variant_student 1 "Ann"; variant_student 2 "Bob";
                         variant_student 3 "Cy"] 4))
  = Ok (Response 200 (message_json "Student deleted successfully")) /\
  rows_of "student"
    (snd (Variant.handle (DELETE_student 1)
            (variant_world [variant_student 1 "Ann"; variant_student 2 "Bob";
                            variant_student 3 "Cy"] 4)))
  = [variant_student 1 "Bob"; variant_student 2 "Cy"].
Proof.
  repeat split; vm_compute; reflexivity.
Qed.

(** ** Round trips through the list route *)

Lemma rows_of_set_tables (name : string) (t : table)
    (ts : gmap string table) (w : world) :
  rows_of name (set_tables (<[name := t]> ts) w) = t_rows t.
Proof. unfold rows_of. simpl. rewrite lookup_insert_eq. reflexivity. Qed.

Lemma get_student_lists (w : world) (t : table) :
  next_fault w = None ->
  tables w !! "student" = Some t ->
  get_student w
  = (Ok (Response 200 (rows_json (t_rows t))), after_queries 1 w).
Proof.
  intros Hnext Ht. unfold get_student, bind. rewrite (query_served _ w Hnext).
  unfold SELECT_ALL, read_table. rewrite Ht. reflexivity.
Qed.

Lemma length_renumbered (rows : list row) :
  length (renumbered rows) = length rows.
Proof. apply length_imap. Qed.

(** C4, as the code has it: on a well-formed student table, a create with
    all fields present is answered 201 by [backend/server.js] and 200 by
    [part_000]; the list route then returns the previous rows followed by
    one new row carrying the submitted name, roll number and class, under
    the counter's key in [backend/server.js] and under the greatest key
    plus one in [part_000].  Deleting a key that is present leaves one row
    fewer; in [backend/server.js] the key is then absent, in [part_000]
    the rows left carry the keys 1, 2, ... *)
Theorem create_then_list_and_delete
    (body : gmap string jsval) (id : Z) (w : world) (t : table) :
  tables w !! "student" = Some t ->
  well_formed t = true ->
  (next_fault w = None -> t_columns t = Backend.student_columns ->
   forallb truthy (required_fields (POST_addstudent body)) = true ->
   exists w',
     Backend.handle (POST_addstudent body) w
     = (Ok (Response 201 (message_json "Student added successfully")), w') /\
     rows_of "student" w'
     = (t_rows t
          ++ [Row (t_auto_increment t)
                [("name", to_varchar (bound (prop body "name")));
                 ("roll_number", to_varchar (bound (prop body "rollNo")));
                 ("class_name", to_varchar (bound (prop body "class")));
                 ("created_at", SqlInt (clock w))]])%list /\
     (next_fault w' = None ->
      fst (Backend.handle GET_student w')
      = Ok (Response 200 (rows_json (rows_of "student" w'))))) /\
  (faults w = [] -> t_columns t = Variant.student_columns ->
   exists w',
     Variant.handle (POST_addstudent body) w
     = (Ok (Response 200 (message_json "Student added successfully")), w') /\
     rows_of "student" w'
     = (t_rows t
          ++ [Row (Variant.lastID_or_0 (max_id (t_rows t)) + 1)
                [("name", to_varchar (bound (prop body "name")));
                 ("roll_number", to_varchar (bound (prop body "rollNo")));
                 ("class", to_varchar (bound (prop body "class")));
                 ("created_at", SqlInt (clock w))]])%list /\
     fst (Variant.handle GET_student w')
     = Ok (Response 200 (rows_json (rows_of "student" w')))) /\
  (next_fault w = None -> has_key id (t_rows t) = true ->
   S (length (rows_of "student" (snd (Backend.handle (DELETE_student id) w))))
   = length (t_rows t) /\
   has_key id (rows_of "student" (snd (Backend.handle (DELETE_student id) w)))
   = false) /\
  (faults w = [] -> has_key id (t_rows t) = true ->
   S (length (rows_of "student" (snd (Variant.handle (DELETE_student id) w))))
   = length (t_rows t) /\
   rows_of "student" (snd (Variant.handle (DELETE_student id) w))
   = renumbered (List.filter (fun r => negb (row_id r =? id)) (t_rows t))).
Proof.
  intros Ht Hwf.
  pose proof (proj1 (well_formed_spec t) Hwf) as (_ & Hinc & _).
  split; [|split; [|split]].
  - intros Hnext Hcols Hfields. eexists. split; [|split].
    + apply (Backend_addstudent_run body w t Hnext Ht Hcols Hwf Hfields).
    + apply rows_of_set_tables.
    + intros Hnext'. simpl.
      erewrite get_student_lists; [|exact Hnext'|apply lookup_insert_eq].
      rewrite rows_of_set_tables. reflexivity.
  - intros Hf Hcols. eexists. split; [|split].
    + apply (Variant_addstudent_run body w t Hf Ht Hcols Hwf).
    + apply rows_of_set_tables.
    + simpl. erewrite get_student_lists; [| |apply lookup_insert_eq].
      * rewrite rows_of_set_tables. reflexivity.
      * unfold next_fault. simpl. rewrite Hf. reflexivity.
  - intros Hnext Hkey. simpl. unfold Backend.delete_student.
    rewrite (Backend_delete_run "student" id w t _ _ Hnext Ht).
    simpl. rewrite rows_of_set_tables. simpl. split.
    + apply (length_filter_key id _ 0 Hinc Hkey).
    + apply has_key_filter.
  - intros Hf Hkey. simpl. unfold Variant.delete_student.
    rewrite (Variant_delete_run "student" id w t _ Hf Ht Hwf).
    simpl. rewrite rows_of_set_tables. simpl. split; [|reflexivity].
    rewrite length_renumbered. apply (length_filter_key id _ 0 Hinc Hkey).
Qed.

Lemma create_then_list_and_delete_witness :
  fst (Backend.handle
         (POST_addstudent {["name" := JStr "Bob"; "rollNo" := JStr "12";
                            "class" := JStr "5A"]})
         (backend_world [backend_student 1 "Ann"] 2))
  = Ok (Response 201 (message_json "Student added successfully")).
Proof.
  assert (Hfields :
            forallb truthy
              (required_fields
                 (POST_addstudent {["name" := JStr "Bob"; "rollNo" := JStr "12";
                                    "class" := JStr "5A"]})) = true)
    by (vm_compute; reflexivity).
  destruct (proj1 (create_then_list_and_delete
                     {["name" := JStr "Bob"; "rollNo" := JStr "12";
                       "class" := JStr "5A"]} 1
                     (backend_world [backend_student 1 "Ann"] 2)
                     (Table Backend.student_columns [backend_student 1 "Ann"] 2)
                     eq_refl eq_refl) eq_refl eq_refl Hfields)
    as (w' & Hrun & _).
  rewrite Hrun. reflexivity.
Defined.

(** C4 fails on [part_000]: a create with all fields present is answered
    200, not 201; and after deleting student 1 of two, a student with key
    1 is still listed. *)
Lemma Variant_create_answers_200 :
  forallb truthy
    (required_fields
       (POST_addstudent {["name" := JStr "Bob"; "rollNo" := JStr "12";
                          "class" := JStr "5A"]})) = true /\
  fst (Variant.handle
         (POST_addstudent {["name" := JStr "Bob"; "rollNo" := JStr "12";
                            "class" := JStr "5A"]})
         (variant_world [variant_student 1 "Ann"] 2))
  = Ok (Response 200 (message_json "Student added successfully")) /\
  has_key 1
    (rows_of "student"
       (snd (Variant.handle (DELETE_student 1)
               (variant_world [variant_student 1 "Ann";
                               variant_student 2 "Bob"] 3)))) = true.
Proof.
  repeat split; vm_compute; reflexivity.
Qed.

(** ** What a request of [backend/server.js] does to the tables *)

Lemma tables_after_bind {A B} (m : M A) (k : A -> M B) (w : world) :
  (forall a w', tables (snd (k a w')) = tables w') ->
  tables (snd (bind m k w)) = tables (snd (m w)).
Proof.
  intros Hk. unfold bind. destruct (m w) as [[a|e] w']; simpl; [apply Hk|].
  reflexivity.
Qed.

Lemma tables_after_try_catch {A} (m : M A) (h : error -> M A) (w : world) :
  (forall e w', tables (snd (h e w')) = tables w') ->
  tables (snd (try_catch m h w)) = tables (snd (m w)).
Proof.
  intros Hh. unfold try_catch. destruct (m w) as [[a|e] w']; simpl;
    [reflexivity|apply Hh].
Qed.

Lemma query_read_tables {A} (name : string) (f : table -> A) (w : world) :
  tables (snd (query (read_table name f) w)) = tables w.
Proof.
  unfold query, read_table.
  destruct (faults w) as [|[e|] fs]; simpl; try reflexivity;
    destruct (tables w !! name); reflexivity.
Qed.

Lemma query_SELECT_1_tables (w : world) :
  tables (snd (query SELECT_1 w)) = tables w.
Proof.
  unfold query, SELECT_1. destruct (faults w) as [|[e|] fs]; reflexivity.
Qed.

Lemma query_write_cases (name : string) (f : Z -> table -> result table)
    (w : world) :
  tables (snd (query (write_table name f) w)) = tables w \/
  exists t t',
    tables w !! name = Some t /\ f (clock w) t = Ok t' /\
    tables (snd (query (write_table name f) w)) = <[name := t']> (tables w).
Proof.
  unfold query, write_table.
  destruct (faults w) as [|[e|] fs]; simpl; auto;
    (destruct (tables w !! name) as [t|] eqn:Ht; simpl; auto;
     destruct (f (clock w) t) as [t'|e'] eqn:Hf; simpl; auto;
     right; exists t, t'; auto).
Qed.

Lemma Backend_handle_tables (req : request) (w : world) :
  tables (snd (Backend.handle req w)) = tables w \/
  exists name t t',
    tables w !! name = Some t /\ table_step t t' /\
    tables (snd (Backend.handle req w)) = <[name := t']> (tables w).
Proof.
  destruct req as [| | | | |body|body|id|id]; simpl.
  - left. reflexivity.
  - left. unfold ready. rewrite tables_after_try_catch by reflexivity.
    rewrite tables_after_bind by reflexivity. apply query_SELECT_1_tables.
  - left. unfold get_root. rewrite tables_after_bind by reflexivity.
    apply query_read_tables.
  - left. unfold get_student. rewrite tables_after_bind by reflexivity.
    apply query_read_tables.
  - left. unfold get_teacher. rewrite tables_after_bind by reflexivity.
    apply query_read_tables.
  - unfold Backend.addstudent.
    rewrite tables_after_try_catch by reflexivity.
    destruct (_ || _); [left; reflexivity|].
    rewrite tables_after_bind by reflexivity.
    destruct (query_write_cases "student"
                (fun now => insert_into now ["name"; "roll_number"; "class_name"]
                              [bound (prop body "name");
                               bound (prop body "rollNo");
                               bound (prop body "class")]) w)
      as [H|(t & t' & Ht & Hins & H)]; [left; exact H|].
    right. exists "student", t, t'. repeat split; try assumption.
    apply insert_into_auto in Hins as [cells ->]; [constructor|reflexivity].
  - unfold Backend.addteacher.
    rewrite tables_after_try_catch by reflexivity.
    destruct (_ || _); [left; reflexivity|].
    rewrite tables_after_bind by reflexivity.
    destruct (query_write_cases "teacher"
                (fun now => insert_into now ["name"; "subject"; "class"]
                              [bound (prop body "name");
                               bound (prop body "subject");
                               bound (prop body "class")]) w)
      as [H|(t & t' & Ht & Hins & H)]; [left; exact H|].
    right. exists "teacher", t, t'. repeat split; try assumption.
    apply insert_into_auto in Hins as [cells ->]; [constructor|reflexivity].
  - unfold Backend.delete_student.
    rewrite tables_after_try_catch by reflexivity.
    rewrite tables_after_bind by reflexivity.
    destruct (query_write_cases "student"
                (fun _ t => Ok (delete_where_id id t)) w)
      as [H|(t & t' & Ht & Hdel & H)]; [left; exact H|].
    right. exists "student", t, t'. repeat split; try assumption.
    injection Hdel as <-. constructor.
  - unfold Backend.delete_teacher.
    rewrite tables_after_try_catch by reflexivity.
    rewrite tables_after_bind by reflexivity.
    destruct (query_write_cases "teacher"
                (fun _ t => Ok (delete_where_id id t)) w)
      as [H|(t & t' & Ht & Hdel & H)]; [left; exact H|].
    right. exists "teacher", t, t'. repeat split; try assumption.
    injection Hdel as <-. constructor.
Qed.

Lemma table_step_counter (t t' : table) :
  table_step t t' -> t_auto_increment t <= t_auto_increment t'.
Proof. intros [|cells|id]; simpl; lia. Qed.

(** C5, as the code has it: a request to [backend/server.js] leaves a
    table as it was, or appends one row under the key the store's
    AUTO_INCREMENT counter holds, or removes the rows of one key; no key of
    a row is ever changed, the counter never goes down, and a well-formed
    table (keys distinct and increasing, below the counter) stays so.
    [part_000] instead computes the key of a new student in the
    application, as the greatest key plus one. *)
Theorem identifiers_assigned_by_store
    (req : request) (w : world) (name : string) (t : table) :
  tables w !! name = Some t ->
  (exists t',
     tables (snd (Backend.handle req w)) !! name = Some t' /\
     table_step t t' /\
     t_auto_increment t <= t_auto_increment t' /\
     (well_formed t = true -> well_formed t' = true)) /\
  (forall body,
     req = POST_addstudent body -> name = "student" ->
     faults w = [] -> t_columns t = Variant.student_columns ->
     well_formed t = true ->
     exists cells,
       rows_of "student" (snd (Variant.handle req w))
       = (t_rows t
            ++ [Row (Variant.lastID_or_0 (max_id (t_rows t)) + 1) cells])%list).
Proof.
  intros Ht. split.
  - assert (Hstep : exists t',
               tables (snd (Backend.handle req w)) !! name = Some t' /\
               table_step t t').
    { destruct (Backend_handle_tables req w)
        as [H|(name' & t0 & t' & Ht0 & Hstep & H)]; rewrite H.
      - exists t. split; [exact Ht|constructor].
      - destruct (decide (name' = name)) as [->|Hne].
        + rewrite lookup_insert_eq. exists t'. split; [reflexivity|].
          rewrite Ht in Ht0. injection Ht0 as <-. exact Hstep.
        + rewrite lookup_insert_ne by exact Hne.
          exists t. split; [exact Ht|constructor]. }
    destruct Hstep as (t' & Hlook & Hstep). exists t'.
    repeat split; try assumption.
    + apply table_step_counter. exact Hstep.
    + apply table_step_well_formed. exact Hstep.
  - intros body -> -> Hf Hcols Hwf. simpl.
    rewrite (Variant_addstudent_run body w t Hf Ht Hcols Hwf). simpl.
    rewrite rows_of_set_tables. simpl. eauto.
Qed.

Lemma identifiers_assigned_by_store_witness :
  exists t',
    tables (snd (Backend.handle
                   (POST_addstudent {["name" := JStr "Bob"; "rollNo" := JStr "12";
                                      "class" := JStr "5A"]})
                   (backend_world [backend_student 1 "Ann"] 2)))
      !! "student" = Some t' /\
    table_step (Table Backend.student_columns [backend_student 1 "Ann"] 2) t' /\
    2 <= t_auto_increment t' /\
    (well_formed (Table Backend.student_columns [backend_student 1 "Ann"] 2)
     = true -> well_formed t' = true).
Proof.
  apply (proj1 (identifiers_assigned_by_store
                  (POST_addstudent {["name" := JStr "Bob"; "rollNo" := JStr "12";
                                     "class" := JStr "5A"]})
                  (backend_world [backend_student 1 "Ann"] 2) "student"
                  (Table Backend.student_columns [backend_student 1 "Ann"] 2)
                  eq_refl)).
Defined.

(** C5 fails on [part_000]: with students 1, 2, 3 and the store's counter
    at 4, deleting student 3 and creating a student gives the new student
    key 3, the key the deleted one had, not the counter's 4. *)
Lemma Variant_reuses_identifier :
  t_auto_increment
    <$> tables (variant_world [variant_student 1 "Ann"; variant_student 2 "Bob";
                               variant_student 3 "Cy"] 4) !! "student"
  = Some 4 /\
  rows_of "student"
    (snd ((Variant.handle (DELETE_student 3) ;;
           Variant.handle
             (POST_addstudent {["name" := JStr "Dee"; "rollNo" := JStr "7";
                                "class" := JStr "5A"]}))
            (variant_world [variant_student 1 "Ann"; variant_student 2 "Bob";
                            variant_student 3 "Cy"] 4)))
  = [variant_student 1 "Ann"; variant_student 2 "Bob"; variant_student 3 "Dee"].
Proof.
  split; vm_compute; reflexivity.
Qed.

(** ** More on the create handlers of [backend/server.js] *)

Lemma Backend_create_unknown_column (name : string) (cols : list string)
    (vals : list sqlval) (c : string) (w : world) (t : table)
    (ok : response) (log : error -> message) :
  tables w !! name = Some t ->
  length cols = length vals ->
  List.find (fun c => negb (has_column t c)) cols = Some c ->
  try_catch
    (query (INSERT_INTO name cols vals) ;; ret ok)
    (fun err =>
       emit (ConsoleError (log err)) ;;
       res_status_json 500 (error_json "Internal server error")) w
  = (Ok (Response 500 (error_json "Internal server error")),
     add_event
       (ConsoleError (log (default (UnknownColumn c) (next_fault w))))
       (after_queries 1 w)).
Proof.
  intros Ht Hlen Hfind. unfold try_catch, bind.
  destruct (next_fault w) as [e|] eqn:Hnext.
  - rewrite (query_rejected _ w e Hnext). reflexivity.
  - rewrite (query_served _ w Hnext).
    unfold INSERT_INTO, write_table, insert_into. rewrite Ht, Hfind.
    rewrite Hlen, Nat.eqb_refl. reflexivity.
Qed.

(** X1: POST /addteacher of [backend/server.js] inserts into a column [class],
    and the teacher table its own [ensureTables] creates has [class_name]:
    on that table a request with all fields present is answered 500, the
    unknown column (or the store's own rejection) is logged, and no
    teacher is ever inserted; the only other answer is the 400 of a
    request with a field missing. *)
Theorem Backend_addteacher_never_inserts
    (body : gmap string jsval) (w : world) (t : table) :
  tables w !! "teacher" = Some t ->
  t_columns t = Backend.teacher_columns ->
  tables (snd (Backend.handle (POST_addteacher body) w)) = tables w /\
  (forallb truthy (required_fields (POST_addteacher body)) = true ->
   Backend.handle (POST_addteacher body) w
   = (Ok (Response 500 (error_json "Internal server error")),
      add_event
        (ConsoleError
           (ErrorAddingTeacher (default (UnknownColumn "class") (next_fault w))))
        (after_queries 1 w))) /\
  (forallb truthy (required_fields (POST_addteacher body)) = false ->
   Backend.handle (POST_addteacher body) w
   = (Ok (Response 400 (error_json "Invalid payload")), w)).
Proof.
  intros Ht Hcols.
  assert (Hfind : List.find (fun c => negb (has_column t c))
                    ["name"; "subject"; "class"] = Some "class").
  { unfold has_column. rewrite Hcols. vm_compute. reflexivity. }
  assert (Hrun : forallb truthy (required_fields (POST_addteacher body)) = true ->
                 Backend.handle (POST_addteacher body) w
                 = (Ok (Response 500 (error_json "Internal server error")),
                    add_event
                      (ConsoleError
                         (ErrorAddingTeacher
                            (default (UnknownColumn "class") (next_fault w))))
                      (after_queries 1 w))).
  { intros Hfields. simpl in Hfields |- *.
    apply andb_prop in Hfields as [H1 Hfields].
    apply andb_prop in Hfields as [H2 Hfields].
    apply andb_prop in Hfields as [H3 _].
    unfold Backend.addteacher. rewrite H1, H2, H3. simpl.
    apply (Backend_create_unknown_column "teacher"
             ["name"; "subject"; "class"]
             [bound (prop body "name"); bound (prop body "subject");
              bound (prop body "class")] "class" w t
             _ ErrorAddingTeacher Ht eq_refl Hfind). }
  assert (Hbad : forallb truthy (required_fields (POST_addteacher body)) = false ->
                 Backend.handle (POST_addteacher body) w
                 = (Ok (Response 400 (error_json "Invalid payload")), w)).
  { intros Hfields. simpl in Hfields |- *.
    apply Backend_addteacher_falsy. rewrite andb_true_r in Hfields.
    rewrite <- andb_assoc. exact Hfields. }
  split; [|split; assumption].
  destruct (forallb truthy (required_fields (POST_addteacher body))) eqn:E.
  - rewrite (Hrun eq_refl). reflexivity.
  - rewrite (Hbad eq_refl). reflexivity.
Qed.

Lemma Backend_addteacher_never_inserts_witness :
  Backend.handle
    (POST_addteacher {["name" := JStr "Eve"; "subject" := JStr "Maths";
                       "class" := JStr "5A"]})
    (backend_world [] 1)
  = (Ok (Response 500 (error_json "Internal server error")),
     add_event (ConsoleError (ErrorAddingTeacher (UnknownColumn "class")))
               (backend_world [] 1)).
Proof.
  assert (Hfields :
            forallb truthy
              (required_fields
                 (POST_addteacher {["name" := JStr "Eve";
                                    "subject" := JStr "Maths";
                                    "class" := JStr "5A"]})) = true)
    by (vm_compute; reflexivity).
  refine (eq_trans
            (proj1 (proj2 (Backend_addteacher_never_inserts
                             {["name" := JStr "Eve"; "subject" := JStr "Maths";
                               "class" := JStr "5A"]}
                             (backend_world [] 1)
                             (Table Backend.teacher_columns [] 1)
                             eq_refl eq_refl)) Hfields) _).
  reflexivity.
Defined.

(** X2: A required field that is [null], [false], [0] or the empty string is
    rejected like an absent one: 400, and nothing is sent to the store.
    (A roll number given as the number 0 cannot be stored.) *)
Theorem Backend_create_rejects_falsy_values
    (body : gmap string jsval) (w : world) (k : string) (v : jsval) :
  body !! k = Some v -> v ∈ falsy_values ->
  (k ∈ ["name"; "rollNo"; "class"] ->
   Backend.handle (POST_addstudent body) w
   = (Ok (Response 400
            (error_json "Invalid payload: name, rollNo, class required")), w)) /\
  (k ∈ ["name"; "subject"; "class"] ->
   Backend.handle (POST_addteacher body) w
   = (Ok (Response 400 (error_json "Invalid payload")), w)).
Proof.
  intros Hk Hv.
  assert (Hfalsy : truthy (prop body k) = false).
  { unfold prop. rewrite Hk. simpl. unfold falsy_values in Hv.
    repeat (apply elem_of_cons in Hv as [->|Hv]; [reflexivity|]).
    inversion Hv. }
  split; intros Hin; simpl.
  - apply Backend_addstudent_falsy.
    repeat (apply elem_of_cons in Hin as [->|Hin];
            [rewrite Hfalsy, ?andb_false_r; reflexivity|]).
    inversion Hin.
  - apply Backend_addteacher_falsy.
    repeat (apply elem_of_cons in Hin as [->|Hin];
            [rewrite Hfalsy, ?andb_false_r; reflexivity|]).
    inversion Hin.
Qed.

Lemma Backend_create_rejects_falsy_values_witness :
  Backend.handle
    (POST_addstudent {["name" := JStr "Ann"; "rollNo" := JNum 0;
                       "class" := JStr "5A"]})
    (backend_world [] 1)
  = (Ok (Response 400
           (error_json "Invalid payload: name, rollNo, class required")),
     backend_world [] 1).
Proof.
  assert (Hk : ({["name" := JStr "Ann"; "rollNo" := JNum 0;
                  "class" := JStr "5A"]} : gmap string jsval) !! "rollNo"
               = Some (JNum 0)) by (vm_compute; reflexivity).
  assert (Hv : JNum 0 ∈ falsy_values).
  { unfold falsy_values. do 2 (apply elem_of_cons; right).
    apply elem_of_cons. left. reflexivity. }
  apply (proj1 (Backend_create_rejects_falsy_values _
                  (backend_world [] 1) "rollNo" (JNum 0) Hk Hv)).
  apply elem_of_cons. right. apply elem_of_cons. left. reflexivity.
Defined.

(** ** [ensureTables] *)

Lemma lookup_ensured_eq (name : string) (cols : list (string * coltype))
    (ts : gmap string table) :
  ensured name cols ts !! name
  = Some (default (Table cols [] 1) (ts !! name)).
Proof.
  unfold ensured. destruct (ts !! name) as [t|] eqn:E; simpl.
  - exact E.
  - apply lookup_insert_eq.
Qed.

Lemma lookup_ensured_ne (name n : string) (cols : list (string * coltype))
    (ts : gmap string table) :
  n <> name -> ensured name cols ts !! n = ts !! n.
Proof.
  intros Hne. unfold ensured. destruct (ts !! name); [reflexivity|].
  apply lookup_insert_ne. congruence.
Qed.

Lemma ensured_keeps (name n : string) (cols : list (string * coltype))
    (ts : gmap string table) (t : table) :
  ts !! n = Some t -> ensured name cols ts !! n = Some t.
Proof.
  intros Hn. destruct (decide (n = name)) as [->|Hne].
  - rewrite lookup_ensured_eq, Hn. reflexivity.
  - rewrite lookup_ensured_ne by exact Hne. exact Hn.
Qed.

Lemma ensured_again (name : string) (cols : list (string * coltype))
    (ts : gmap string table) :
  is_Some (ts !! name) -> ensured name cols ts = ts.
Proof. intros [t Ht]. unfold ensured. rewrite Ht. reflexivity. Qed.

Lemma query_create_tables (name : string) (cols : list (string * coltype))
    (w : world) :
  tables (snd (query (CREATE_TABLE_IF_NOT_EXISTS name cols) w)) = tables w \/
  tables (snd (query (CREATE_TABLE_IF_NOT_EXISTS name cols) w))
  = ensured name cols (tables w).
Proof.
  unfold query, CREATE_TABLE_IF_NOT_EXISTS, ensured.
  destruct (faults w) as [|[e|] fs]; simpl; auto;
    destruct (tables w !! name); simpl; auto.
Qed.

Lemma query_create_available (name : string) (cols : list (string * coltype))
    (w : world) :
  faults w = [] ->
  query (CREATE_TABLE_IF_NOT_EXISTS name cols) w
  = (Ok tt, set_tables (ensured name cols (tables w)) w).
Proof.
  intros Hf. rewrite (query_available _ w Hf).
  unfold CREATE_TABLE_IF_NOT_EXISTS, ensured.
  destruct (tables w !! name); [rewrite set_tables_same|]; reflexivity.
Qed.

Lemma ensureTables_shape_available (scols tcols : list (string * coltype))
    (w : world) :
  faults w = [] ->
  try_catch
    (query (CREATE_TABLE_IF_NOT_EXISTS "student" scols) ;;
     query (CREATE_TABLE_IF_NOT_EXISTS "teacher" tcols) ;;
     emit (ConsoleLog TablesEnsured))
    (fun error => emit (ConsoleError (ErrorEnsuringTables error)) ;; throw error)
    w
  = (Ok tt,
     add_event (ConsoleLog TablesEnsured)
       (set_tables
          (ensured "teacher" tcols (ensured "student" scols (tables w))) w)).
Proof.
  intros Hf. unfold try_catch. unfold bind at 1.
  rewrite (query_create_available _ _ w Hf).
  unfold bind at 1. rewrite query_create_available by exact Hf.
  reflexivity.
Qed.

Lemma ensured_twice (scols tcols : list (string * coltype))
    (ts : gmap string table) :
  ensured "teacher" tcols
    (ensured "student" scols
       (ensured "teacher" tcols (ensured "student" scols ts)))
  = ensured "teacher" tcols (ensured "student" scols ts).
Proof.
  rewrite (ensured_again "student").
  - apply ensured_again. rewrite lookup_ensured_eq. eauto.
  - rewrite lookup_ensured_ne by discriminate. rewrite lookup_ensured_eq. eauto.
Qed.

(** X3: On a store that serves it, [ensureTables] (of either file) succeeds;
    afterwards both tables exist, a table that existed before is exactly
    as it was, rows and columns, a missing one is created empty with the
    file's columns, no other table is touched, and running it again
    changes nothing. *)
Theorem ensureTables_creates_missing_keeps_existing (db : pool) (w : world) :
  faults w = [] ->
  (fst (Backend.ensureTables (Some db) w) = Ok tt /\
   tables (snd (Backend.ensureTables (Some db) w)) !! "student"
   = Some (default (Table Backend.student_columns [] 1)
                   (tables w !! "student")) /\
   tables (snd (Backend.ensureTables (Some db) w)) !! "teacher"
   = Some (default (Table Backend.teacher_columns [] 1)
                   (tables w !! "teacher")) /\
   (forall n, n <> "student" -> n <> "teacher" ->
              tables (snd (Backend.ensureTables (Some db) w)) !! n
              = tables w !! n) /\
   tables (snd (Backend.ensureTables (Some db)
                  (snd (Backend.ensureTables (Some db) w))))
   = tables (snd (Backend.ensureTables (Some db) w))) /\
  (fst (Variant.ensureTables (Some db) w) = Ok tt /\
   tables (snd (Variant.ensureTables (Some db) w)) !! "student"
   = Some (default (Table Variant.student_columns [] 1)
                   (tables w !! "student")) /\
   tables (snd (Variant.ensureTables (Some db) w)) !! "teacher"
   = Some (default (Table Variant.teacher_columns [] 1)
                   (tables w !! "teacher")) /\
   (forall n, n <> "student" -> n <> "teacher" ->
              tables (snd (Variant.ensureTables (Some db) w)) !! n
              = tables w !! n) /\
   tables (snd (Variant.ensureTables (Some db)
                  (snd (Variant.ensureTables (Some db) w))))
   = tables (snd (Variant.ensureTables (Some db) w))).
Proof.
  intros Hf. unfold Backend.ensureTables, Variant.ensureTables, db_query.
  split.
  - rewrite (ensureTables_shape_available _ _ w Hf). simpl.
    rewrite ensureTables_shape_available by exact Hf. simpl.
    repeat split.
    + rewrite lookup_ensured_ne by discriminate. apply lookup_ensured_eq.
    + rewrite lookup_ensured_eq, lookup_ensured_ne by discriminate.
      reflexivity.
    + intros n H1 H2. rewrite !lookup_ensured_ne by assumption. reflexivity.
    + apply ensured_twice.
  - rewrite (ensureTables_shape_available _ _ w Hf). simpl.
    rewrite ensureTables_shape_available by exact Hf. simpl.
    repeat split.
    + rewrite lookup_ensured_ne by discriminate. apply lookup_ensured_eq.
    + rewrite lookup_ensured_eq, lookup_ensured_ne by discriminate.
      reflexivity.
    + intros n H1 H2. rewrite !lookup_ensured_ne by assumption. reflexivity.
    + apply ensured_twice.
Qed.

Lemma ensureTables_creates_missing_keeps_existing_witness :
  tables (snd (Backend.ensureTables (Some sample_pool)
                 (variant_world [variant_student 1 "Ann"] 2))) !! "student"
  = Some (Table Variant.student_columns [variant_student 1 "Ann"] 2).
Proof.
  refine (eq_trans
            (proj1 (proj2 (proj1 (ensureTables_creates_missing_keeps_existing
                                    sample_pool
                                    (variant_world [variant_student 1 "Ann"] 2)
                                    eq_refl)))) _).
  vm_compute. reflexivity.
Defined.

(** X4: Whatever the store does, [ensureTables] of [backend/server.js] leaves
    a table that exists as it is; so on a student table with the columns
    of [part_000] (a store the other version initialised), POST
    /addstudent with all fields present is answered 500: the INSERT names
    [class_name], the table has [class]. *)
Theorem Backend_on_a_store_of_part_000
    (body : gmap string jsval) (w : world) (t : table) :
  tables w !! "student" = Some t ->
  t_columns t = Variant.student_columns ->
  (forall db, tables (snd (Backend.ensureTables db w)) !! "student" = Some t) /\
  (forallb truthy (required_fields (POST_addstudent body)) = true ->
   Backend.handle (POST_addstudent body) w
   = (Ok (Response 500 (error_json "Internal server error")),
      add_event
        (ConsoleError
           (ErrorAddingStudent
              (default (UnknownColumn "class_name") (next_fault w))))
        (after_queries 1 w))).
Proof.
  intros Ht Hcols. split.
  - intros [db|]; unfold Backend.ensureTables, db_query;
      [|unfold try_catch, bind, throw, emit; simpl; exact Ht].
    rewrite tables_after_try_catch
      by (intros e w'; unfold bind, emit, throw; reflexivity).
    unfold bind at 1.
    destruct (query_create_tables "student" Backend.student_columns w) as [H1|H1];
      destruct (query (CREATE_TABLE_IF_NOT_EXISTS "student" _) w)
        as [[[]|e] w1] eqn:E1; simpl in H1 |- *;
      try (rewrite H1; first [exact Ht | apply ensured_keeps; exact Ht]);
      (rewrite tables_after_bind by reflexivity;
       destruct (query_create_tables "teacher" Backend.teacher_columns w1)
         as [H2|H2]; rewrite H2, H1;
       repeat apply ensured_keeps; exact Ht).
  - intros Hfields. simpl in Hfields |- *.
    apply andb_prop in Hfields as [H1 Hfields].
    apply andb_prop in Hfields as [H2 Hfields].
    apply andb_prop in Hfields as [H3 _].
    unfold Backend.addstudent. rewrite H1, H2, H3. simpl.
    apply (Backend_create_unknown_column "student"
             ["name"; "roll_number"; "class_name"]
             [bound (prop body "name"); bound (prop body "rollNo");
              bound (prop body "class")] "class_name" w t
             _ ErrorAddingStudent Ht eq_refl).
    unfold has_column. rewrite Hcols. vm_compute. reflexivity.
Qed.

Lemma Backend_on_a_store_of_part_000_witness :
  Backend.handle
    (POST_addstudent {["name" := JStr "Bob"; "rollNo" := JStr "12";
                       "class" := JStr "5A"]})
    (variant_world [] 1)
  = (Ok (Response 500 (error_json "Internal server error")),
     add_event (ConsoleError (ErrorAddingStudent (UnknownColumn "class_name")))
               (variant_world [] 1)).
Proof.
  assert (Hfields :
            forallb truthy
              (required_fields
                 (POST_addstudent {["name" := JStr "Bob"; "rollNo" := JStr "12";
                                    "class" := JStr "5A"]})) = true)
    by (vm_compute; reflexivity).
  refine (eq_trans
            (proj2 (Backend_on_a_store_of_part_000
                      {["name" := JStr "Bob"; "rollNo" := JStr "12";
                        "class" := JStr "5A"]}
                      (variant_world [] 1)
                      (Table Variant.student_columns [] 1)
                      eq_refl eq_refl) Hfields) _).
  reflexivity.
Defined.

(** ** Start-up *)

Lemma check_env_passes (env : gmap string string) (keys : list string)
    (w : world) :
  Forall (fun k => env_missing env k = false) keys ->
  check_env env keys w = (None, w).
Proof.
  induction 1 as [|k keys Hk _ IH]; simpl; [reflexivity|].
  rewrite Hk. exact IH.
Qed.

Lemma env_missing_false (env : gmap string string) (k : string) :
  env_missing env k = false <-> exists v, env !! k = Some v /\ v <> "".
Proof.
  unfold env_missing. destruct (env !! k) as [v|]; split.
  - intros H. exists v. split; [reflexivity|].
    intros ->. discriminate H.
  - intros (v' & [= <-] & Hne). apply String.eqb_neq. exact Hne.
  - discriminate.
  - intros (v' & [=] & _).
Qed.

(** X5: The environment check passes exactly when each of the four required
    keys is set to a non-empty string; it then writes nothing and start-up
    goes on to connect.  A key set to the empty string counts as missing. *)
Theorem env_check_passes_iff (env : gmap string string) (w : world) :
  ((forall key, key ∈ REQUIRED_ENV_VARS ->
                exists v, env !! key = Some v /\ v <> "")
   <-> check_env env REQUIRED_ENV_VARS w = (None, w)) /\
  (check_env env REQUIRED_ENV_VARS w = (None, w) ->
   Backend.main env w = init (Backend.createPool env) Backend.ensureTables w /\
   Variant.main env w = init (Variant.createPool env) Variant.ensureTables w) /\
  (forall key, key ∈ REQUIRED_ENV_VARS -> env !! key = Some "" ->
               fst (Backend.main env w) = Exited 1 /\
               fst (Variant.main env w) = Exited 1).
Proof.
  split; [split|split].
  - intros Hall. apply check_env_passes. apply Forall_forall.
    intros k Hk. apply env_missing_false. apply Hall. exact Hk.
  - intros Hrun key Hkey.
    apply env_missing_false. destruct (env_missing env key) eqn:Hmiss;
      [|reflexivity].
    destruct (check_env_first_missing env _ w key Hkey Hmiss)
      as (pre & k & post & _ & _ & _ & Hexit).
    rewrite Hexit in Hrun. discriminate Hrun.
  - intros Hrun. unfold Backend.main, Variant.main, main. rewrite Hrun.
    split; reflexivity.
  - intros key Hkey Hempty.
    assert (Hmiss : env_missing env key = true).
    { unfold env_missing. rewrite Hempty. reflexivity. }
    destruct (check_env_first_missing env _ w key Hkey Hmiss)
      as (pre & k & post & _ & _ & _ & Hexit).
    unfold Backend.main, Variant.main, main. rewrite Hexit.
    split; reflexivity.
Qed.

Lemma init_connect_rejected (createPool : M pool)
    (ensureTables : option pool -> M unit)
    (w w1 : world) (e : error) :
  connectWithRetry createPool None None w = (Err e, w1) ->
  init createPool ensureTables w
  = (Exited 1, add_event (ConsoleError (FatalCouldNotStart e)) w1).
Proof. intros H. unfold init, bind. rewrite H. reflexivity. Qed.

Lemma init_ensure_rejected (createPool : M pool)
    (ensureTables : option pool -> M unit)
    (w w1 w2 : world) (p : pool) (e : error) :
  connectWithRetry createPool None None w = (Ok (Some p), w1) ->
  ensureTables (Some p) w1 = (Err e, w2) ->
  init createPool ensureTables w
  = (Exited 1, add_event (ConsoleError (FatalCouldNotStart e)) w2).
Proof. intros H1 H2. unfold init, bind. rewrite H1, H2. reflexivity. Qed.

Lemma init_serving (createPool : M pool)
    (ensureTables : option pool -> M unit)
    (w w1 w2 : world) (p : pool) :
  connectWithRetry createPool None None w = (Ok (Some p), w1) ->
  ensureTables (Some p) w1 = (Ok tt, w2) ->
  init createPool ensureTables w
  = (Serving (Some p),
     add_event (ConsoleLog ServerRunning) (add_event (Listen 3500) w2)).
Proof. intros H1 H2. unfold init, bind. rewrite H1, H2. reflexivity. Qed.

Lemma connectWithRetry_default_succeeds (createPool : M pool) (p : pool)
    (errs : list error) (rest : list (option error)) (w : world) :
  (forall w', files w' = files w -> createPool w' = (Ok p, w')) ->
  faults w = (map Some errs ++ None :: rest)%list ->
  (length errs < 10)%nat ->
  connectWithRetry createPool None None w
  = (Ok (Some p),
     World (tables w) (clock w) rest (files w)
           (trace w ++ failures 10 3000 1 errs
              ++ [ConsoleLog (Connected (Z.of_nat (length errs) + 1))])).
Proof.
  intros Hcp Hf Hlen. unfold connectWithRetry, attempt_numbers. simpl default.
  rewrite (attempts_loop_succeeds createPool p 10 3000 (files w) Hcp
             errs 1 (Z.to_nat 10) w rest eq_refl Hf);
    [| lia | intros j Hj; lia].
  change (Z.of_nat 1) with 1.
  replace (Z.of_nat (1 + length errs)) with (Z.of_nat (length errs) + 1) by lia.
  reflexivity.
Qed.

Lemma connectWithRetry_default_exhausted (createPool : M pool) (p : pool)
    (errs : list error) (e : error) (rest : list (option error)) (w : world) :
  (forall w', files w' = files w -> createPool w' = (Ok p, w')) ->
  faults w = (map Some (errs ++ [e]) ++ rest)%list ->
  length errs = 9%nat ->
  connectWithRetry createPool None None w
  = (Err e,
     World (tables w) (clock w) rest (files w)
           (trace w ++ failures 10 3000 1 errs
              ++ [ConsoleError (ConnectionFailed 10 10 e)])).
Proof.
  intros Hcp Hf Hlen. unfold connectWithRetry, attempt_numbers. simpl default.
  replace (Z.to_nat 10) with (S (length errs)) by (rewrite Hlen; reflexivity).
  rewrite (attempts_loop_exhausted createPool p 10 3000 (files w) Hcp
             errs 1 w rest e eq_refl Hf); [reflexivity|].
  rewrite Hlen. reflexivity.
Qed.

Section RetryLoopWithoutPool.

Variable createPool : M pool.
Variable e : error.
Variables retries delay : Z.
Variable disk : gmap string string.

(** [createPool] itself throws, as that of [part_000] does when the
    certificate file cannot be read. *)
Hypothesis createPool_throws :
  forall w, files w = disk -> createPool w = (Err e, w).

Lemma attempts_loop_createPool_throws (n : nat) :
  forall (start : nat) (w : world),
    files w = disk ->
    Z.of_nat (start + n) = retries ->
    attempts_loop createPool retries delay
      (map Z.of_nat (seq start (S n))) w
    = (Err e,
       World (tables w) (clock w) (faults w) (files w)
             (trace w ++ failures retries delay (Z.of_nat start) (replicate n e)
                ++ [ConsoleError (ConnectionFailed retries retries e)])).
Proof.
  induction n as [|n IH]; intros start w Hd Hlast;
    [ change (seq start 1) with [start]
    | change (seq start (S (S n))) with (start :: seq (S start) (S n)) ];
    cbn [map]; cbn [attempts_loop].
  - unfold try_catch, bind. rewrite (createPool_throws w Hd). unfold emit.
    rewrite Nat.add_0_r in Hlast. rewrite Hlast, Z.eqb_refl. reflexivity.
  - unfold try_catch at 1. unfold bind at 1. rewrite (createPool_throws w Hd).
    unfold bind at 1. unfold emit at 1.
    destruct (Z.of_nat start =? retries) eqn:Hnow.
    + apply Z.eqb_eq in Hnow. lia.
    + unfold bind at 1. unfold emit at 1. unfold bind at 1. unfold emit at 1.
      rewrite (IH (S start)).
      * simpl. rewrite <- !app_assoc. simpl.
        replace (Z.of_nat start + 1) with (Z.of_nat (S start)) by lia.
        reflexivity.
      * exact Hd.
      * rewrite <- Hlast. f_equal. lia.
Qed.

End RetryLoopWithoutPool.

Lemma ensureTables_shape_rejected_first (scols tcols : list (string * coltype))
    (w : world) (e : error) (rest : list (option error)) :
  faults w = Some e :: rest ->
  try_catch
    (query (CREATE_TABLE_IF_NOT_EXISTS "student" scols) ;;
     query (CREATE_TABLE_IF_NOT_EXISTS "teacher" tcols) ;;
     emit (ConsoleLog TablesEnsured))
    (fun error => emit (ConsoleError (ErrorEnsuringTables error)) ;; throw error)
    w
  = (Err e,
     World (tables w) (clock w) rest (files w)
           (trace w ++ [ConsoleError (ErrorEnsuringTables e)])).
Proof.
  intros Hf. unfold try_catch, bind, query. rewrite Hf. reflexivity.
Qed.

Lemma ensureTables_shape_rejected_second (scols tcols : list (string * coltype))
    (w : world) (e : error) (rest : list (option error)) :
  faults w = None :: Some e :: rest ->
  try_catch
    (query (CREATE_TABLE_IF_NOT_EXISTS "student" scols) ;;
     query (CREATE_TABLE_IF_NOT_EXISTS "teacher" tcols) ;;
     emit (ConsoleLog TablesEnsured))
    (fun error => emit (ConsoleError (ErrorEnsuringTables error)) ;; throw error)
    w
  = (Err e,
     World (ensured "student" scols (tables w)) (clock w) rest (files w)
           (trace w ++ [ConsoleError (ErrorEnsuringTables e)])).
Proof.
  intros Hf. unfold try_catch. unfold bind at 1. unfold query at 1.
  rewrite Hf. unfold CREATE_TABLE_IF_NOT_EXISTS at 1, ensured.
  destruct (tables w !! "student"); simpl;
    unfold bind, query; simpl; reflexivity.
Qed.

Lemma Variant_createPool_reads (env : gmap string string) (ca : string)
    (w : world) :
  files w !! "/app/global-bundle.pem" = Some ca ->
  forall w', files w' = files w ->
    Variant.createPool env w'
    = (Ok (Pool (env !! "DB_HOST") (env !! "DB_USER") (env !! "DB_PASSWORD")
                (env !! "DB_NAME") (Some 3306) true 10 0 None
                (CertificateAuthority ca)), w').
Proof.
  intros Hca w' Hw'. unfold Variant.createPool, bind, Variant.readFileSync.
  rewrite Hw', Hca. reflexivity.
Qed.

(** X6: With the environment complete, a store that rejects fewer than ten
    connection attempts and then serves lets either file start: the
    listener on port 3500 is opened after the connection is made and both
    tables exist, and nothing is logged after "server running". *)
Theorem startup_opens_listener_after_tables
    (env : gmap string string) (w : world) (errs : list error) :
  check_env env REQUIRED_ENV_VARS w = (None, w) ->
  faults w = (map Some errs ++ [None])%list ->
  (length errs < 10)%nat ->
  (exists db,
     Backend.main env w
     = (Serving db,
        World (ensured "teacher" Backend.teacher_columns
                 (ensured "student" Backend.student_columns (tables w)))
              (clock w) [] (files w)
              (trace w ++ failures 10 3000 1 errs
                 ++ [ConsoleLog (Connected (Z.of_nat (length errs) + 1));
                     ConsoleLog TablesEnsured; Listen 3500;
                     ConsoleLog ServerRunning]))) /\
  (forall ca,
     files w !! "/app/global-bundle.pem" = Some ca ->
     exists db,
       Variant.main env w
       = (Serving db,
          World (ensured "teacher" Variant.teacher_columns
                   (ensured "student" Variant.student_columns (tables w)))
                (clock w) [] (files w)
                (trace w ++ failures 10 3000 1 errs
                   ++ [ConsoleLog (Connected (Z.of_nat (length errs) + 1));
                       ConsoleLog TablesEnsured; Listen 3500;
                       ConsoleLog ServerRunning]))).
Proof.
  intros Hcheck Hf Hlen. split.
  - eexists. unfold Backend.main, main. rewrite Hcheck.
    pose proof (connectWithRetry_default_succeeds (Backend.createPool env) _
                  errs [] w (fun w' _ => eq_refl) Hf Hlen) as Hc.
    erewrite init_serving; cycle 1.
    { exact Hc. }
    { apply ensureTables_shape_available. reflexivity. }
    unfold add_event, set_tables. simpl. rewrite <- !app_assoc. reflexivity.
  - intros ca Hca. eexists. unfold Variant.main, main. rewrite Hcheck.
    pose proof (connectWithRetry_default_succeeds (Variant.createPool env) _
                  errs [] w (Variant_createPool_reads env ca w Hca) Hf Hlen)
      as Hc.
    erewrite init_serving; cycle 1.
    { exact Hc. }
    { apply ensureTables_shape_available. reflexivity. }
    unfold add_event, set_tables. simpl. rewrite <- !app_assoc. reflexivity.
Qed.

Lemma startup_opens_listener_after_tables_witness :
  exists db,
    Backend.main {["DB_HOST" := "db"; "DB_USER" := "root";
                   "DB_PASSWORD" := "secret"; "DB_NAME" := "school"]}
      (World ∅ 0 [Some StoreUnavailable; None] ∅ [])
    = (Serving db,
       World (ensured "teacher" Backend.teacher_columns
                (ensured "student" Backend.student_columns ∅))
             0 [] ∅
             ([] ++ failures 10 3000 1 [StoreUnavailable]
                ++ [ConsoleLog (Connected (Z.of_nat 1 + 1));
                    ConsoleLog TablesEnsured; Listen 3500;
                    ConsoleLog ServerRunning])).
Proof.
  assert (Hcheck :
            check_env {["DB_HOST" := "db"; "DB_USER" := "root";
                        "DB_PASSWORD" := "secret"; "DB_NAME" := "school"]}
              REQUIRED_ENV_VARS (World ∅ 0 [Some StoreUnavailable; None] ∅ [])
            = (None, World ∅ 0 [Some StoreUnavailable; None] ∅ []))
    by (vm_compute; reflexivity).
  assert (Hlen : (length [StoreUnavailable] < 10)%nat) by (simpl; lia).
  exact (proj1 (startup_opens_listener_after_tables _ _ [StoreUnavailable]
                  Hcheck eq_refl Hlen)).
Defined.

(** X7: If the store rejects the first ten connection attempts, either file
    gives up: nine waits of 3000 ms, the tenth failure logged and then the
    fatal error, exit status 1; no table is created and no listener
    opened. *)
Theorem startup_gives_up_after_ten_attempts
    (env : gmap string string) (w : world) (errs : list error) (e : error)
    (rest : list (option error)) :
  check_env env REQUIRED_ENV_VARS w = (None, w) ->
  faults w = (map Some (errs ++ [e]) ++ rest)%list ->
  length errs = 9%nat ->
  Backend.main env w
  = (Exited 1,
     World (tables w) (clock w) rest (files w)
           (trace w ++ failures 10 3000 1 errs
              ++ [ConsoleError (ConnectionFailed 10 10 e);
                  ConsoleError (FatalCouldNotStart e)])) /\
  (forall ca,
     files w !! "/app/global-bundle.pem" = Some ca ->
     Variant.main env w
     = (Exited 1,
        World (tables w) (clock w) rest (files w)
              (trace w ++ failures 10 3000 1 errs
                 ++ [ConsoleError (ConnectionFailed 10 10 e);
                     ConsoleError (FatalCouldNotStart e)]))).
Proof.
  intros Hcheck Hf Hlen. split.
  - unfold Backend.main, main. rewrite Hcheck.
    pose proof (connectWithRetry_default_exhausted (Backend.createPool env) _
                  errs e rest w (fun w' _ => eq_refl) Hf Hlen) as Hc.
    rewrite (init_connect_rejected _ Backend.ensureTables _ _ _ Hc).
    unfold add_event. simpl. rewrite <- !app_assoc. reflexivity.
  - intros ca Hca. unfold Variant.main, main. rewrite Hcheck.
    pose proof (connectWithRetry_default_exhausted (Variant.createPool env) _
                  errs e rest w (Variant_createPool_reads env ca w Hca) Hf Hlen)
      as Hc.
    rewrite (init_connect_rejected _ Variant.ensureTables _ _ _ Hc).
    unfold add_event. simpl. rewrite <- !app_assoc. reflexivity.
Qed.

Lemma startup_gives_up_after_ten_attempts_witness :
  fst (Backend.main {["DB_HOST" := "db"; "DB_USER" := "root";
                      "DB_PASSWORD" := "secret"; "DB_NAME" := "school"]}
         (World ∅ 0 (replicate 10 (Some StoreUnavailable)) ∅ []))
  = Exited 1.
Proof.
  assert (Hcheck :
            check_env {["DB_HOST" := "db"; "DB_USER" := "root";
                        "DB_PASSWORD" := "secret"; "DB_NAME" := "school"]}
              REQUIRED_ENV_VARS
              (World ∅ 0 (replicate 10 (Some StoreUnavailable)) ∅ [])
            = (None, World ∅ 0 (replicate 10 (Some StoreUnavailable)) ∅ []))
    by (vm_compute; reflexivity).
  rewrite (proj1 (startup_gives_up_after_ten_attempts _ _
                    (replicate 9 StoreUnavailable) StoreUnavailable []
                    Hcheck eq_refl eq_refl)).
  reflexivity.
Defined.

(** X8: When the store rejects a CREATE TABLE of [ensureTables], start-up is
    aborted: the error is logged twice (by [ensureTables], then as fatal),
    the exit status is 1 and no listener is opened.  If it is the second
    CREATE that fails, the student table has been created all the same. *)
Theorem startup_aborts_when_tables_cannot_be_ensured
    (env : gmap string string) (w : world) (e : error)
    (rest : list (option error)) :
  check_env env REQUIRED_ENV_VARS w = (None, w) ->
  (faults w = None :: Some e :: rest ->
   Backend.main env w
   = (Exited 1,
      World (tables w) (clock w) rest (files w)
            (trace w ++ [ConsoleLog (Connected 1);
                         ConsoleError (ErrorEnsuringTables e);
                         ConsoleError (FatalCouldNotStart e)]))) /\
  (faults w = None :: None :: Some e :: rest ->
   Backend.main env w
   = (Exited 1,
      World (ensured "student" Backend.student_columns (tables w))
            (clock w) rest (files w)
            (trace w ++ [ConsoleLog (Connected 1);
                         ConsoleError (ErrorEnsuringTables e);
                         ConsoleError (FatalCouldNotStart e)]))).
Proof.
  intros Hcheck. split; intros Hf; unfold Backend.main, main; rewrite Hcheck.
  - pose proof (connectWithRetry_default_succeeds (Backend.createPool env) _
                  [] (Some e :: rest) w (fun w' _ => eq_refl) Hf
                  ltac:(simpl; lia)) as Hc.
    erewrite init_ensure_rejected; cycle 1.
    { exact Hc. }
    { apply ensureTables_shape_rejected_first. reflexivity. }
    unfold add_event. simpl. rewrite <- !app_assoc. reflexivity.
  - pose proof (connectWithRetry_default_succeeds (Backend.createPool env) _
                  [] (None :: Some e :: rest) w (fun w' _ => eq_refl) Hf
                  ltac:(simpl; lia)) as Hc.
    erewrite init_ensure_rejected; cycle 1.
    { exact Hc. }
    { apply ensureTables_shape_rejected_second. reflexivity. }
    unfold add_event. simpl. rewrite <- !app_assoc. reflexivity.
Qed.

Lemma startup_aborts_when_tables_cannot_be_ensured_witness :
  Backend.main {["DB_HOST" := "db"; "DB_USER" := "root";
                 "DB_PASSWORD" := "secret"; "DB_NAME" := "school"]}
    (World ∅ 0 [None; Some StoreUnavailable] ∅ [])
  = (Exited 1,
     World ∅ 0 [] ∅
           [ConsoleLog (Connected 1);
            ConsoleError (ErrorEnsuringTables StoreUnavailable);
            ConsoleError (FatalCouldNotStart StoreUnavailable)]).
Proof.
  assert (Hcheck :
            check_env {["DB_HOST" := "db"; "DB_USER" := "root";
                        "DB_PASSWORD" := "secret"; "DB_NAME" := "school"]}
              REQUIRED_ENV_VARS (World ∅ 0 [None; Some StoreUnavailable] ∅ [])
            = (None, World ∅ 0 [None; Some StoreUnavailable] ∅ []))
    by (vm_compute; reflexivity).
  exact (proj1 (startup_aborts_when_tables_cannot_be_ensured _ _
                  StoreUnavailable [] Hcheck) eq_refl).
Defined.

(** X9: [part_000] reads its certificate inside the retry loop: without the
    file /app/global-bundle.pem every one of the ten attempts fails before
    any query is sent, the waits are made all the same, and the process
    exits with status 1; the store is never contacted. *)
Theorem Variant_startup_without_certificate
    (env : gmap string string) (w : world) :
  check_env env REQUIRED_ENV_VARS w = (None, w) ->
  files w !! "/app/global-bundle.pem" = None ->
  Variant.main env w
  = (Exited 1,
     World (tables w) (clock w) (faults w) (files w)
           (trace w
              ++ failures 10 3000 1
                   (replicate 9 (FileNotFound "/app/global-bundle.pem"))
              ++ [ConsoleError
                    (ConnectionFailed 10 10
                       (FileNotFound "/app/global-bundle.pem"));
                  ConsoleError
                    (FatalCouldNotStart
                       (FileNotFound "/app/global-bundle.pem"))])).
Proof.
  intros Hcheck Hca. unfold Variant.main, main. rewrite Hcheck.
  erewrite init_connect_rejected; cycle 1.
  { unfold connectWithRetry, attempt_numbers. simpl default.
    change (Z.to_nat 10) with 10%nat.
    apply (attempts_loop_createPool_throws (Variant.createPool env)
             (FileNotFound "/app/global-bundle.pem") 10 3000 (files w)).
    - intros w' Hw'. unfold Variant.createPool, bind, Variant.readFileSync.
      rewrite Hw', Hca. reflexivity.
    - reflexivity.
    - reflexivity. }
  unfold add_event. simpl. rewrite <- !app_assoc. reflexivity.
Qed.

Lemma Variant_startup_without_certificate_witness :
  fst (Variant.main {["DB_HOST" := "db"; "DB_USER" := "root";
                      "DB_PASSWORD" := "secret"; "DB_NAME" := "school"]}
         (World ∅ 0 [] ∅ []))
  = Exited 1.
Proof.
  assert (Hcheck :
            check_env {["DB_HOST" := "db"; "DB_USER" := "root";
                        "DB_PASSWORD" := "secret"; "DB_NAME" := "school"]}
              REQUIRED_ENV_VARS (World ∅ 0 [] ∅ [])
            = (None, World ∅ 0 [] ∅ []))
    by (vm_compute; reflexivity).
  rewrite (Variant_startup_without_certificate _ _ Hcheck eq_refl).
  reflexivity.
Defined.

(** ** What the routes never do *)

Lemma read_routes_tables (req : request) (w : world) :
  is_write_request req = false ->
  tables (snd (Backend.handle req w)) = tables w /\
  Variant.handle req w = Backend.handle req w.
Proof.
  destruct req; intros [=]; simpl; (split; [|reflexivity]).
  - reflexivity.
  - unfold ready. rewrite tables_after_try_catch by reflexivity.
    rewrite tables_after_bind by reflexivity. apply query_SELECT_1_tables.
  - unfold get_root. rewrite tables_after_bind by reflexivity.
    apply query_read_tables.
  - unfold get_student. rewrite tables_after_bind by reflexivity.
    apply query_read_tables.
  - unfold get_teacher. rewrite tables_after_bind by reflexivity.
    apply query_read_tables.
Qed.

(** X10: A GET request (probe or list) never changes a table, in either file,
    whatever the store does with its query. *)
Theorem get_requests_never_write (req : request) (w : world) :
  is_write_request req = false ->
  tables (snd (Backend.handle req w)) = tables w /\
  tables (snd (Variant.handle req w)) = tables w.
Proof.
  intros Hread. destruct (read_routes_tables req w Hread) as [H1 H2].
  rewrite H2. split; exact H1.
Qed.

Lemma get_requests_never_write_witness :
  tables (snd (Backend.handle GET_root
                 (backend_world [backend_student 1 "Ann"] 2)))
  = tables (backend_world [backend_student 1 "Ann"] 2) /\
  tables (snd (Variant.handle GET_root
                 (backend_world [backend_student 1 "Ann"] 2)))
  = tables (backend_world [backend_student 1 "Ann"] 2).
Proof.
  apply (get_requests_never_write GET_root). reflexivity.
Defined.

Lemma delete_where_id_twice (id : Z) (t : table) :
  delete_where_id id (delete_where_id id t) = delete_where_id id t.
Proof.
  unfold delete_where_id. simpl. f_equal.
  induction (t_rows t) as [|r rows IH]; simpl; [reflexivity|].
  destruct (negb (row_id r =? id)) eqn:E; simpl; [rewrite E|]; congruence.
Qed.

Lemma Backend_delete_twice (name : string) (id : Z) (w : world) (t : table)
    (ok : json) (h : error -> M response) :
  next_fault w = None ->
  next_fault (after_queries 1 w) = None ->
  tables w !! name = Some t ->
  fst (try_catch (query (DELETE_WHERE_ID name id) ;; res_json ok) h
         (snd (try_catch (query (DELETE_WHERE_ID name id) ;; res_json ok) h w)))
  = Ok (Response 200 ok) /\
  tables (snd (try_catch (query (DELETE_WHERE_ID name id) ;; res_json ok) h
                 (snd (try_catch (query (DELETE_WHERE_ID name id) ;; res_json ok)
                         h w))))
  = tables (snd (try_catch (query (DELETE_WHERE_ID name id) ;; res_json ok) h w)).
Proof.
  intros Hnext Hnext' Ht.
  rewrite (Backend_delete_run name id w t ok h Hnext Ht). simpl snd.
  set (w1 := set_tables (<[name := delete_where_id id t]> (tables w))
                        (after_queries 1 w)).
  assert (Ht1 : tables w1 !! name = Some (delete_where_id id t))
    by apply lookup_insert_eq.
  rewrite (Backend_delete_run name id w1 _ ok h Hnext' Ht1). simpl.
  rewrite delete_where_id_twice, insert_insert_eq. auto.
Qed.

(** X11: In [backend/server.js] a delete is idempotent: repeated on a store that
    serves it, it is answered 200 again and changes nothing more. *)
Theorem Backend_delete_is_idempotent (id : Z) (w : world) (t : table) :
  next_fault w = None ->
  next_fault (after_queries 1 w) = None ->
  (tables w !! "student" = Some t ->
   fst (Backend.handle (DELETE_student id)
          (snd (Backend.handle (DELETE_student id) w)))
   = Ok (Response 200 (message_json "Student deleted successfully")) /\
   tables (snd (Backend.handle (DELETE_student id)
                  (snd (Backend.handle (DELETE_student id) w))))
   = tables (snd (Backend.handle (DELETE_student id) w))) /\
  (tables w !! "teacher" = Some t ->
   fst (Backend.handle (DELETE_teacher id)
          (snd (Backend.handle (DELETE_teacher id) w)))
   = Ok (Response 200 (message_json "Teacher deleted successfully")) /\
   tables (snd (Backend.handle (DELETE_teacher id)
                  (snd (Backend.handle (DELETE_teacher id) w))))
   = tables (snd (Backend.handle (DELETE_teacher id) w))).
Proof.
  intros Hnext Hnext'. split; intros Ht.
  - apply (Backend_delete_twice "student" id w t _ _ Hnext Hnext' Ht).
  - apply (Backend_delete_twice "teacher" id w t _ _ Hnext Hnext' Ht).
Qed.

Lemma Backend_delete_is_idempotent_witness :
  fst (Backend.handle (DELETE_student 1)
         (snd (Backend.handle (DELETE_student 1)
                 (backend_world [backend_student 1 "Ann";
                                 backend_student 2 "Bob"] 3))))
  = Ok (Response 200 (message_json "Student deleted successfully")) /\
  tables (snd (Backend.handle (DELETE_student 1)
                 (snd (Backend.handle (DELETE_student 1)
                         (backend_world [backend_student 1 "Ann";
                                         backend_student 2 "Bob"] 3)))))
  = tables (snd (Backend.handle (DELETE_student 1)
                   (backend_world [backend_student 1 "Ann";
                                   backend_student 2 "Bob"] 3))).
Proof.
  exact (proj1 (Backend_delete_is_idempotent 1
                  (backend_world [backend_student 1 "Ann";
                                  backend_student 2 "Bob"] 3)
                  (Table Backend.student_columns
                         [backend_student 1 "Ann"; backend_student 2 "Bob"] 3)
                  eq_refl eq_refl) eq_refl).
Defined.

(** ** The keys [part_000] leaves after a delete *)

Lemma ids_renumbered_from (rows : list row) :
  forall k : nat,
    map row_id (imap (fun j r => Row (Z.of_nat (j + k) + 1) (row_cells r)) rows)
    = map Z.of_nat (seq (S k) (length rows)).
Proof.
  induction rows as [|r rows IH]; intros k; [reflexivity|].
  rewrite imap_cons. cbn [map length seq row_id]. f_equal; [lia|].
  rewrite <- (IH (S k)). f_equal. apply imap_ext.
  intros j x _. simpl. f_equal. lia.
Qed.

Lemma ids_renumbered (rows : list row) :
  map row_id (renumbered rows) = map Z.of_nat (seq 1 (length rows)).
Proof.
  rewrite <- (ids_renumbered_from rows 0). unfold renumbered. f_equal.
  apply imap_ext. intros j x _. simpl. f_equal. lia.
Qed.

Lemma cells_rekeyed (rows : list row) :
  forall key : nat -> Z,
    map row_cells (imap (fun j r => Row (key j) (row_cells r)) rows)
    = map row_cells rows.
Proof.
  induction rows as [|r rows IH]; intros key; [reflexivity|].
  rewrite imap_cons. simpl. f_equal. apply (IH (fun j => key (S j))).
Qed.

Lemma cells_renumbered (rows : list row) :
  map row_cells (renumbered rows) = map row_cells rows.
Proof. apply (cells_rekeyed rows (fun index => Z.of_nat index + 1)). Qed.

Lemma increasing_seq (n : nat) :
  forall k : nat,
    increasing_from (Z.of_nat k) (map Z.of_nat (seq (S k) n)) = true.
Proof.
  induction n as [|n IH]; intros k; simpl; [reflexivity|].
  rewrite (IH (S k)), andb_true_r. apply Z.ltb_lt. lia.
Qed.

Lemma increasing_length (l : list Z) :
  forall lo b, increasing_from lo l = true -> lo < b ->
    Forall (fun i => i < b) l -> lo + Z.of_nat (length l) < b.
Proof.
  induction l as [|i l IH]; intros lo b; simpl; [lia|].
  intros H Hlo Hall. apply andb_prop in H as [H1 H2]. apply Z.ltb_lt in H1.
  inversion Hall; subst.
  pose proof (IH i b H2 ltac:(assumption) ltac:(assumption)). lia.
Qed.

Lemma well_formed_renumbered (t : table) :
  well_formed t = true ->
  well_formed (Table (t_columns t) (renumbered (t_rows t))
                     (t_auto_increment t)) = true.
Proof.
  intros Hwf. apply well_formed_spec in Hwf as (H0 & Hinc & Hbelow).
  apply well_formed_spec. simpl. repeat split; [exact H0| |].
  - rewrite ids_renumbered. apply (increasing_seq _ 0).
  - apply (proj1 (Forall_map row_id (fun i => i < t_auto_increment t) _)).
    rewrite ids_renumbered.
    apply (proj2 (Forall_map row_id (fun i => i < t_auto_increment t) _))
      in Hbelow.
    pose proof (increasing_length _ 0 _ Hinc H0 Hbelow) as Hlen.
    rewrite length_map in Hlen.
    apply Forall_forall. intros i Hi. apply list_elem_of_In in Hi.
    apply in_map_iff in Hi as (j & <- & Hj). apply in_seq in Hj. lia.
Qed.

Lemma Variant_insert_teacher (now next : Z) (a b c : sqlval) (t : table) :
  t_columns t = Variant.teacher_columns ->
  well_formed t = true ->
  next = Variant.lastID_or_0 (max_id (t_rows t)) + 1 ->
  insert_into now ["id"; "name"; "subject"; "class"]
    [SqlInt next; a; b; c] t
  = Ok (Table (t_columns t)
              (t_rows t ++ [Row next
                              [("name", to_varchar a);
                               ("subject", to_varchar b);
                               ("class", to_varchar c);
                               ("created_at", SqlInt now)]])
              (Z.max (t_auto_increment t) (next + 1))).
Proof.
  intros Hcols Hwf ->. destruct (lastID_bounds t Hwf) as [[Hlo Hhi] Hall].
  unfold insert_into, has_column, new_key. rewrite Hcols.
  cbn -[to_varchar has_key Z.max Z.add Z.eqb].
  destruct (Z.eqb_spec (Variant.lastID_or_0 (max_id (t_rows t)) + 1) 0) as [|_];
    [lia|].
  rewrite has_key_false.
  - destruct (to_varchar a), (to_varchar b), (to_varchar c); reflexivity.
  - eapply Forall_impl; [exact Hall|]. simpl. intros. lia.
Qed.

Lemma Variant_addteacher_run (body : gmap string jsval) (w : world) (t : table) :
  faults w = [] ->
  tables w !! "teacher" = Some t ->
  t_columns t = Variant.teacher_columns ->
  well_formed t = true ->
  Variant.addteacher body w
  = (Ok (Response 200 (message_json "Teacher added successfully")),
     set_tables
       (<["teacher" :=
            Table (t_columns t)
                  (t_rows t
                     ++ [Row (Variant.lastID_or_0 (max_id (t_rows t)) + 1)
                           [("name", to_varchar (bound (prop body "name")));
                            ("subject", to_varchar (bound (prop body "subject")));
                            ("class", to_varchar (bound (prop body "class")));
                            ("created_at", SqlInt (clock w))]])
                  (Z.max (t_auto_increment t)
                         (Variant.lastID_or_0 (max_id (t_rows t)) + 1 + 1))]>
          (tables w))
       w).
Proof.
  intros Hf Ht Hcols Hwf.
  unfold Variant.addteacher, Variant.getLastTeacherID.
  unfold bind at 1. unfold bind at 1. rewrite (query_available _ w Hf).
  unfold SELECT_MAX_ID, read_table. rewrite Ht, set_tables_same.
  unfold ret at 1. unfold bind at 1. rewrite (query_available _ w Hf).
  unfold INSERT_INTO, write_table. rewrite Ht.
  rewrite (Variant_insert_teacher _ _ _ _ _ t Hcols Hwf eq_refl).
  reflexivity.
Qed.

(** ** Invariants of the store under sequences of requests *)

Lemma table_step_columns (t t' : table) :
  table_step t t' -> t_columns t' = t_columns t.
Proof. intros [|cells|id]; reflexivity. Qed.

Lemma store_ok_insert (scols tcols : list (string * coltype)) (w w' : world)
    (name : string) (t t' : table) :
  store_ok scols tcols w ->
  tables w !! name = Some t ->
  t_columns t' = t_columns t ->
  (well_formed t = true -> well_formed t' = true) ->
  tables w' = <[name := t']> (tables w) ->
  store_ok scols tcols w'.
Proof.
  intros (s & u & Hs & Hu & Hsc & Huc & Hsw & Huw) Ht Hcols Hwf Hw'.
  unfold store_ok. rewrite Hw'.
  destruct (decide (name = "student")) as [->|Hns].
  - rewrite Hs in Ht. injection Ht as <-.
    exists t', u. rewrite lookup_insert_eq, lookup_insert_ne by discriminate.
    repeat split; auto; congruence.
  - destruct (decide (name = "teacher")) as [->|Hnt].
    + rewrite Hu in Ht. injection Ht as <-.
      exists s, t'. rewrite lookup_insert_eq, lookup_insert_ne by discriminate.
      repeat split; auto; congruence.
    + exists s, u. rewrite !lookup_insert_ne by congruence.
      repeat split; auto.
Qed.

Lemma store_ok_same (scols tcols : list (string * coltype)) (w w' : world) :
  store_ok scols tcols w -> tables w' = tables w -> store_ok scols tcols w'.
Proof. unfold store_ok. intros H ->. exact H. Qed.

Lemma Backend_step_store_ok (req : request) (w : world) :
  store_ok Backend.student_columns Backend.teacher_columns w ->
  store_ok Backend.student_columns Backend.teacher_columns
           (snd (Backend.handle req w)).
Proof.
  intros Hok.
  destruct (Backend_handle_tables req w)
    as [H|(name & t & t' & Ht & Hstep & H)].
  - apply (store_ok_same _ _ w); assumption.
  - apply (store_ok_insert _ _ w _ name t t'); try assumption.
    + apply table_step_columns. exact Hstep.
    + apply table_step_well_formed. exact Hstep.
Qed.

(** X12: In [backend/server.js], whatever the requests and whatever the store
    rejects, both tables keep their columns and stay well-formed: keys
    distinct, increasing in storage order and below the counter.  The
    store [ensureTables] makes of one without these tables is such a
    store. *)
Theorem Backend_keeps_store_well_formed
    (reqs : list request) (db : pool) (w : world) :
  (store_ok Backend.student_columns Backend.teacher_columns w ->
   store_ok Backend.student_columns Backend.teacher_columns
            (serve Backend.handle reqs w)) /\
  (faults w = [] ->
   tables w !! "student" = None -> tables w !! "teacher" = None ->
   store_ok Backend.student_columns Backend.teacher_columns
            (serve Backend.handle reqs
               (snd (Backend.ensureTables (Some db) w)))).
Proof.
  assert (Hserve : forall w0,
             store_ok Backend.student_columns Backend.teacher_columns w0 ->
             store_ok Backend.student_columns Backend.teacher_columns
                      (serve Backend.handle reqs w0)).
  { induction reqs as [|req reqs IH]; intros w0 Hok; simpl; [exact Hok|].
    apply IH. apply Backend_step_store_ok. exact Hok. }
  split; [apply Hserve|].
  intros Hf Hs Ht. apply Hserve. unfold Backend.ensureTables, db_query.
  rewrite (ensureTables_shape_available _ _ w Hf).
  unfold store_ok, add_event, set_tables. cbn [snd tables].
  exists (Table Backend.student_columns [] 1),
         (Table Backend.teacher_columns [] 1).
  rewrite lookup_ensured_ne by discriminate.
  rewrite !lookup_ensured_eq, lookup_ensured_ne by discriminate.
  rewrite Hs, Ht. repeat split; reflexivity.
Qed.

Lemma Backend_keeps_store_well_formed_witness :
  store_ok Backend.student_columns Backend.teacher_columns
    (serve Backend.handle
       [POST_addstudent {["name" := JStr "Bob"; "rollNo" := JStr "12";
                          "class" := JStr "5A"]};
        DELETE_student 1; GET_student]
       (snd (Backend.ensureTables (Some sample_pool) (World ∅ 0 [] ∅ [])))).
Proof.
  apply (proj2 (Backend_keeps_store_well_formed _ sample_pool
                  (World ∅ 0 [] ∅ [])));
    reflexivity.
Defined.

Lemma Variant_step_store_ok (req : request) (w : world) :
  faults w = [] ->
  store_ok Variant.student_columns Variant.teacher_columns w ->
  is_ok (fst (Variant.handle req w)) = true /\
  faults (snd (Variant.handle req w)) = [] /\
  store_ok Variant.student_columns Variant.teacher_columns
           (snd (Variant.handle req w)).
Proof.
  intros Hf Hok.
  pose proof Hok as (s & u & Hs & Hu & Hsc & Huc & Hsw & Huw).
  destruct req as [| | | | |body|body|id|id]; simpl.
  - auto.
  - unfold ready, try_catch, bind. rewrite (query_available _ w Hf).
    unfold SELECT_1. rewrite set_tables_same. simpl. auto.
  - unfold get_root, bind. rewrite (query_available _ w Hf).
    unfold SELECT_ALL, read_table. rewrite Hs, set_tables_same. simpl. auto.
  - unfold get_student, bind. rewrite (query_available _ w Hf).
    unfold SELECT_ALL, read_table. rewrite Hs, set_tables_same. simpl. auto.
  - unfold get_teacher, bind. rewrite (query_available _ w Hf).
    unfold SELECT_ALL, read_table. rewrite Hu, set_tables_same. simpl. auto.
  - rewrite (Variant_addstudent_run body w s Hf Hs Hsc Hsw).
    split; [reflexivity|]. split; [exact Hf|].
    eapply (store_ok_insert _ _ w _ "student" s);
      [exact Hok|exact Hs| | |reflexivity]; [reflexivity|].
    intros _. destruct (lastID_bounds s Hsw) as [[Hlo _] Hall].
    apply well_formed_append; [exact Hsw| |lia].
    eapply Forall_impl; [exact Hall|]. simpl. intros. lia.
  - rewrite (Variant_addteacher_run body w u Hf Hu Huc Huw).
    split; [reflexivity|]. split; [exact Hf|].
    eapply (store_ok_insert _ _ w _ "teacher" u);
      [exact Hok|exact Hu| | |reflexivity]; [reflexivity|].
    intros _. destruct (lastID_bounds u Huw) as [[Hlo _] Hall].
    apply well_formed_append; [exact Huw| |lia].
    eapply Forall_impl; [exact Hall|]. simpl. intros. lia.
  - unfold Variant.delete_student.
    rewrite (Variant_delete_run "student" id w s _ Hf Hs Hsw).
    split; [reflexivity|]. split; [exact Hf|].
    eapply (store_ok_insert _ _ w _ "student" s);
      [exact Hok|exact Hs| | |reflexivity]; [reflexivity|].
    intros _.
    exact (well_formed_renumbered (delete_where_id id s)
             (well_formed_delete id s Hsw)).
  - unfold Variant.delete_teacher.
    rewrite (Variant_delete_run "teacher" id w u _ Hf Hu Huw).
    split; [reflexivity|]. split; [exact Hf|].
    eapply (store_ok_insert _ _ w _ "teacher" u);
      [exact Hok|exact Hu| | |reflexivity]; [reflexivity|].
    intros _.
    exact (well_formed_renumbered (delete_where_id id u)
             (well_formed_delete id u Huw)).
Qed.

(** X13: In [part_000], on a store that serves every query and holds both
    tables well-formed, every request is answered (none is rejected) and
    leaves both tables well-formed with their columns; this holds along
    any sequence of requests, from the store [ensureTables] makes of one
    without these tables on. *)
Theorem Variant_keeps_store_well_formed
    (reqs : list request) (req : request) (db : pool) (w : world) :
  faults w = [] ->
  (store_ok Variant.student_columns Variant.teacher_columns w ->
   store_ok Variant.student_columns Variant.teacher_columns
            (serve Variant.handle reqs w) /\
   is_ok (fst (Variant.handle req (serve Variant.handle reqs w))) = true) /\
  (tables w !! "student" = None -> tables w !! "teacher" = None ->
   store_ok Variant.student_columns Variant.teacher_columns
            (serve Variant.handle reqs
               (snd (Variant.ensureTables (Some db) w)))).
Proof.
  intros Hf.
  assert (Hserve : forall w0,
             faults w0 = [] ->
             store_ok Variant.student_columns Variant.teacher_columns w0 ->
             faults (serve Variant.handle reqs w0) = [] /\
             store_ok Variant.student_columns Variant.teacher_columns
                      (serve Variant.handle reqs w0)).
  { induction reqs as [|r reqs IH]; intros w0 Hf0 Hok; simpl; [auto|].
    destruct (Variant_step_store_ok r w0 Hf0 Hok) as (_ & Hf1 & Hok1).
    apply IH; assumption. }
  split.
  - intros Hok. destruct (Hserve w Hf Hok) as [Hf' Hok'].
    split; [exact Hok'|]. apply Variant_step_store_ok; assumption.
  - intros Hs Ht. apply Hserve.
    + unfold Variant.ensureTables, db_query.
      rewrite (ensureTables_shape_available _ _ w Hf). exact Hf.
    + unfold Variant.ensureTables, db_query.
      rewrite (ensureTables_shape_available _ _ w Hf).
      unfold store_ok, add_event, set_tables. cbn [snd tables].
      exists (Table Variant.student_columns [] 1),
             (Table Variant.teacher_columns [] 1).
      rewrite lookup_ensured_ne by discriminate.
      rewrite !lookup_ensured_eq, lookup_ensured_ne by discriminate.
      rewrite Hs, Ht. repeat split; reflexivity.
Qed.

Lemma Variant_keeps_store_well_formed_witness :
  store_ok Variant.student_columns Variant.teacher_columns
    (serve Variant.handle
       [POST_addstudent {["name" := JStr "Bob"; "class" := JStr "5A"]};
        POST_addstudent {["name" := JStr "Cy"; "rollNo" := JStr "3";
                          "class" := JStr "5A"]};
        DELETE_student 1]
       (snd (Variant.ensureTables (Some sample_pool) (World ∅ 0 [] ∅ [])))).
Proof.
  apply (proj2 (Variant_keeps_store_well_formed _ GET_health sample_pool
                  (World ∅ 0 [] ∅ []) eq_refl)); reflexivity.
Defined.

(** X14: After a delete in [part_000] (store serving, table well-formed) the
    keys of the table are exactly 1, 2, ..., n with no gap, n the number of
    rows left, and the cells of those rows are as before, in the same
    order: the key no longer tells which record a row is. *)
Theorem Variant_delete_leaves_keys_dense (id : Z) (w : world) (t : table) :
  faults w = [] ->
  well_formed t = true ->
  (tables w !! "student" = Some t ->
   map row_id (rows_of "student" (snd (Variant.handle (DELETE_student id) w)))
   = map Z.of_nat
       (seq 1 (length (List.filter (fun r => negb (row_id r =? id)) (t_rows t))))
   /\
   map row_cells (rows_of "student" (snd (Variant.handle (DELETE_student id) w)))
   = map row_cells (List.filter (fun r => negb (row_id r =? id)) (t_rows t))) /\
  (tables w !! "teacher" = Some t ->
   map row_id (rows_of "teacher" (snd (Variant.handle (DELETE_teacher id) w)))
   = map Z.of_nat
       (seq 1 (length (List.filter (fun r => negb (row_id r =? id)) (t_rows t))))
   /\
   map row_cells (rows_of "teacher" (snd (Variant.handle (DELETE_teacher id) w)))
   = map row_cells (List.filter (fun r => negb (row_id r =? id)) (t_rows t))).
Proof.
  intros Hf Hwf. split; intros Ht; simpl;
    unfold Variant.delete_student, Variant.delete_teacher;
    rewrite (Variant_delete_run _ id w t _ Hf Ht Hwf);
    cbn [snd]; rewrite rows_of_set_tables; cbn [t_rows delete_where_id];
    (split; [apply ids_renumbered|apply cells_renumbered]).
Qed.

Lemma Variant_delete_leaves_keys_dense_witness :
  map row_id
    (rows_of "student"
       (snd (Variant.handle (DELETE_student 2)
               (variant_world [variant_student 1 "Ann"; variant_student 2 "Bob";
                               variant_student 3 "Cy"] 4))))
  = map Z.of_nat
      (seq 1 (length
                (List.filter (fun r => negb (row_id r =? 2))
                   [variant_student 1 "Ann"; variant_student 2 "Bob";
                    variant_student 3 "Cy"]))).
Proof.
  exact (proj1 (proj1 (Variant_delete_leaves_keys_dense 2
                         (variant_world [variant_student 1 "Ann";
                                         variant_student 2 "Bob";
                                         variant_student 3 "Cy"] 4)
                         (Table Variant.student_columns
                                [variant_student 1 "Ann"; variant_student 2 "Bob";
                                 variant_student 3 "Cy"] 4)
                         eq_refl eq_refl) eq_refl)).
Defined.

(** X15: The delete of [part_000] is three steps with no transaction: if the
    store serves the DELETE and rejects the SELECT that follows, the row is
    gone, nothing is renumbered, and the request is rejected without a
    response. *)
Theorem Variant_delete_is_not_atomic
    (id : Z) (w : world) (t : table) (e : error) (rest : list (option error)) :
  faults w = None :: Some e :: rest ->
  (tables w !! "student" = Some t ->
   Variant.handle (DELETE_student id) w
   = (Err e,
      World (<["student" := delete_where_id id t]> (tables w))
            (clock w) rest (files w) (trace w))) /\
  (tables w !! "teacher" = Some t ->
   Variant.handle (DELETE_teacher id) w
   = (Err e,
      World (<["teacher" := delete_where_id id t]> (tables w))
            (clock w) rest (files w) (trace w))).
Proof.
  intros Hf. split; intros Ht; simpl;
    unfold Variant.delete_student, Variant.delete_teacher;
    unfold bind at 1; unfold query at 1; rewrite Hf;
    unfold DELETE_WHERE_ID, write_table; rewrite Ht; simpl;
    unfold bind, query; simpl; reflexivity.
Qed.

Lemma Variant_delete_is_not_atomic_witness :
  Variant.handle (DELETE_student 1)
    (World {["student" := Table Variant.student_columns
                                (variant_student 1 "Ann"
                                 :: variant_student 3 "Cy" :: nil) 4]}
           0 [None; Some StoreUnavailable] ∅ [])
  = (Err StoreUnavailable,
     World (<["student" := delete_where_id 1
                             (Table Variant.student_columns
                                    (variant_student 1 "Ann"
                                     :: variant_student 3 "Cy" :: nil) 4)]>
              {["student" := Table Variant.student_columns
                                   (variant_student 1 "Ann"
                                    :: variant_student 3 "Cy" :: nil) 4]})
           0 [] ∅ []).
Proof.
  exact (proj1 (Variant_delete_is_not_atomic 1
                  (World {["student" := Table Variant.student_columns
                                              (variant_student 1 "Ann"
                                               :: variant_student 3 "Cy" :: nil)
                                              4]}
                         0 [None; Some StoreUnavailable] ∅ [])
                  _ StoreUnavailable [] eq_refl) eq_refl).
Defined.

Lemma fold_left_max_In (l : list Z) :
  forall a, In (fold_left Z.max l a) (a :: l).
Proof.
  induction l as [|x l IH]; intros a; simpl; [auto|].
  destruct (IH (Z.max a x)) as [H|H]; [|auto].
  rewrite <- H. destruct (Z.max_spec a x) as [[_ ->]|[_ ->]]; auto.
Qed.

(** X16: [getLastStudentID] and [getLastTeacherID] of [part_000], when the
    store serves them: 0 for an empty table, otherwise a key of the table;
    in both cases no key of the table exceeds it. *)
Theorem getLastID_is_the_greatest_key (w : world) (t : table) :
  faults w = [] ->
  (tables w !! "student" = Some t ->
   exists last,
     Variant.getLastStudentID w = (Ok last, w) /\
     (t_rows t = [] -> last = 0) /\
     (t_rows t <> [] -> In last (map row_id (t_rows t))) /\
     (t_rows t <> [] -> Forall (fun r => row_id r <= last) (t_rows t))) /\
  (tables w !! "teacher" = Some t ->
   exists last,
     Variant.getLastTeacherID w = (Ok last, w) /\
     (t_rows t = [] -> last = 0) /\
     (t_rows t <> [] -> In last (map row_id (t_rows t))) /\
     (t_rows t <> [] -> Forall (fun r => row_id r <= last) (t_rows t))).
Proof.
  intros Hf.
  assert (Hmax : forall rows,
             (rows = [] -> Variant.lastID_or_0 (max_id rows) = 0) /\
             (rows <> [] ->
              In (Variant.lastID_or_0 (max_id rows)) (map row_id rows)) /\
             (rows <> [] ->
              Forall (fun r => row_id r <= Variant.lastID_or_0 (max_id rows))
                     rows)).
  { intros [|r rows]; [repeat split; congruence|].
    simpl. repeat split; [discriminate| |].
    - intros _. apply (fold_left_max_In (map row_id rows) (row_id r)).
    - intros _.
      destruct (fold_left_max_ge (map row_id rows) (row_id r)) as [H1 H2].
      constructor; [exact H1|].
      apply (proj1 (Forall_map row_id _ _)) in H2. exact H2. }
  split; intros Ht; exists (Variant.lastID_or_0 (max_id (t_rows t)));
    (split; [|apply Hmax]);
    unfold Variant.getLastStudentID, Variant.getLastTeacherID, bind;
    rewrite (query_available _ w Hf);
    unfold SELECT_MAX_ID, read_table; rewrite Ht, set_tables_same;
    reflexivity.
Qed.

Lemma getLastID_is_the_greatest_key_witness :
  exists last,
    Variant.getLastStudentID
      (variant_world [variant_student 1 "Ann"; variant_student 2 "Bob"] 3)
    = (Ok last,
       variant_world [variant_student 1 "Ann"; variant_student 2 "Bob"] 3) /\
    (t_rows (Table Variant.student_columns
                   [variant_student 1 "Ann"; variant_student 2 "Bob"] 3) = []
     -> last = 0) /\
    (t_rows (Table Variant.student_columns
                   [variant_student 1 "Ann"; variant_student 2 "Bob"] 3) <> []
     -> In last (map row_id
                   (t_rows (Table Variant.student_columns
                                  [variant_student 1 "Ann";
                                   variant_student 2 "Bob"] 3)))) /\
    (t_rows (Table Variant.student_columns
                   [variant_student 1 "Ann"; variant_student 2 "Bob"] 3) <> []
     -> Forall (fun r => row_id r <= last)
          (t_rows (Table Variant.student_columns
                         [variant_student 1 "Ann"; variant_student 2 "Bob"] 3))).
Proof.
  exact (proj1 (getLastID_is_the_greatest_key
                  (variant_world [variant_student 1 "Ann";
                                  variant_student 2 "Bob"] 3)
                  (Table Variant.student_columns
                         [variant_student 1 "Ann"; variant_student 2 "Bob"] 3)
                  eq_refl) eq_refl).
Defined.

(** ** The pool a running server holds *)

Ltac in_list :=
  repeat (apply elem_of_cons; first [left; reflexivity | right]).

Lemma main_serving_env (createPool : M pool)
    (ensureTables : option pool -> M unit)
    (env : gmap string string) (w w' : world) (odb : option pool)
    (key : string) :
  main createPool ensureTables env w = (Serving odb, w') ->
  key ∈ REQUIRED_ENV_VARS ->
  exists v, env !! key = Some v /\ v <> "".
Proof.
  intros Hmain Hkey. apply env_missing_false.
  destruct (env_missing env key) eqn:Hmiss; [|reflexivity].
  destruct (check_env_first_missing env _ w key Hkey Hmiss)
    as (pre & k & post & _ & _ & _ & Hexit).
  unfold main in Hmain. rewrite Hexit in Hmain. discriminate Hmain.
Qed.

(** [ensureTables(undefined)] throws, so start-up never gets to serve
    with [db] undefined. *)
Lemma main_serving_pool (createPool : M pool)
    (ensureTables : option pool -> M unit)
    (env : gmap string string) (w w' : world) (odb : option pool) :
  (forall w0, exists e w1, ensureTables None w0 = (Err e, w1)) ->
  main createPool ensureTables env w = (Serving odb, w') ->
  exists db, odb = Some db /\
             main createPool ensureTables env w = (Serving (Some db), w').
Proof.
  intros Hnone Hmain. destruct odb as [db|]; [eauto|]. exfalso.
  revert Hmain. unfold main.
  destruct (check_env env REQUIRED_ENV_VARS w) as [[code|] w1];
    [intros [=]|].
  unfold init. unfold bind at 1.
  destruct (connectWithRetry createPool None None w1) as [[[p|]|e] w2];
    [| |intros [=]].
  - unfold bind at 1. destruct (ensureTables (Some p) w2) as [[[]|e] w3];
      [|intros [=]].
    unfold bind, emit, ret. intros [=].
  - unfold bind at 1. destruct (Hnone w2) as (e & w3 & ->). intros [=].
Qed.

Lemma Backend_ensureTables_undefined (w : world) :
  exists e w1, Backend.ensureTables None w = (Err e, w1).
Proof. eexists _, _. reflexivity. Qed.

Lemma Variant_ensureTables_undefined (w : world) :
  exists e w1, Variant.ensureTables None w = (Err e, w1).
Proof. eexists _, _. reflexivity. Qed.

(** X17: A server that is running (of either file) holds a pool, never
    [undefined], built from the environment: host, user, password and
    database are the four required values, each a non-empty string; it
    waits for a free connection, at most 10 connections, no bound on the
    queue.  [backend/server.js] sets a connect timeout of 20000 ms and does
    not verify the server certificate; [part_000] sets no timeout and
    verifies against the certificate file it read. *)
Theorem served_pool_configuration
    (env : gmap string string) (w w' : world) (odb : option pool) :
  (Backend.main env w = (Serving odb, w')
   \/ Variant.main env w = (Serving odb, w') ->
   exists db h u p d,
     odb = Some db /\
     host db = Some h /\ user db = Some u /\ password db = Some p /\
     database db = Some d /\
     env !! "DB_HOST" = Some h /\ env !! "DB_USER" = Some u /\
     env !! "DB_PASSWORD" = Some p /\ env !! "DB_NAME" = Some d /\
     h <> "" /\ u <> "" /\ p <> "" /\ d <> "" /\
     waitForConnections db = true /\ connectionLimit db = 10 /\
     queueLimit db = 0) /\
  (Backend.main env w = (Serving odb, w') ->
   exists db,
     odb = Some db /\
     connectTimeout db = Some 20000 /\ ssl db = RejectUnauthorized false) /\
  (Variant.main env w = (Serving odb, w') ->
   exists db ca,
     odb = Some db /\
     connectTimeout db = None /\ ssl db = CertificateAuthority ca).
Proof.
  assert (HB : Backend.main env w = (Serving odb, w') ->
               odb = Some (Pool (env !! "DB_HOST") (env !! "DB_USER")
                                (env !! "DB_PASSWORD") (env !! "DB_NAME")
                                (env_or (env !! "DB_PORT") Number (Some 3306))
                                true 10 0 (Some 20000)
                                (RejectUnauthorized false))).
  { intros Hmain.
    destruct (main_serving_pool _ _ _ _ _ _ Backend_ensureTables_undefined Hmain)
      as (db & -> & Hmain').
    destruct (main_serves_created_pool _ _ _ _ _ _ Hmain') as (w0 & w1 & Hcp).
    unfold Backend.createPool, ret in Hcp. injection Hcp as <- _.
    reflexivity. }
  assert (HV : Variant.main env w = (Serving odb, w') ->
               exists ca,
                 odb = Some (Pool (env !! "DB_HOST") (env !! "DB_USER")
                                  (env !! "DB_PASSWORD") (env !! "DB_NAME")
                                  (Some 3306) true 10 0 None
                                  (CertificateAuthority ca))).
  { intros Hmain.
    destruct (main_serving_pool _ _ _ _ _ _ Variant_ensureTables_undefined Hmain)
      as (db & -> & Hmain').
    destruct (main_serves_created_pool _ _ _ _ _ _ Hmain') as (w0 & w1 & Hcp).
    unfold Variant.createPool, bind, Variant.readFileSync, ret in Hcp.
    destruct (files w0 !! "/app/global-bundle.pem") as [ca|]; [|discriminate Hcp].
    injection Hcp as <- _. exists ca. reflexivity. }
  split; [|split].
  - intros Hmain.
    assert (Henv : forall key, key ∈ REQUIRED_ENV_VARS ->
                               exists v, env !! key = Some v /\ v <> "").
    { intros key Hkey.
      destruct Hmain as [Hmain|Hmain];
        apply (main_serving_env _ _ _ _ _ _ key Hmain Hkey). }
    destruct (Henv "DB_HOST") as (h & Hh & Hh'); [unfold REQUIRED_ENV_VARS; in_list|].
    destruct (Henv "DB_USER") as (u & Hu & Hu'); [unfold REQUIRED_ENV_VARS; in_list|].
    destruct (Henv "DB_PASSWORD") as (p & Hp & Hp'); [unfold REQUIRED_ENV_VARS; in_list|].
    destruct (Henv "DB_NAME") as (d & Hd & Hd'); [unfold REQUIRED_ENV_VARS; in_list|].
    destruct Hmain as [Hmain|Hmain].
    + eexists _, h, u, p, d. split; [exact (HB Hmain)|]. simpl.
      rewrite Hh, Hu, Hp, Hd. auto 20.
    + destruct (HV Hmain) as [ca Hodb].
      eexists _, h, u, p, d. split; [exact Hodb|]. simpl.
      rewrite Hh, Hu, Hp, Hd. auto 20.
  - intros Hmain. eexists. split; [exact (HB Hmain)|]. simpl. auto.
  - intros Hmain. destruct (HV Hmain) as [ca Hodb].
    eexists _, ca. split; [exact Hodb|]. simpl. auto.
Qed.

Lemma served_pool_configuration_witness :
  exists db,
    Some (Pool (Some "db") (Some "root") (Some "secret") (Some "school")
               (Some 3306) true 10 0 (Some 20000) (RejectUnauthorized false))
    = Some db /\
    connectTimeout db = Some 20000 /\ ssl db = RejectUnauthorized false.
Proof.
  refine (proj1 (proj2 (served_pool_configuration
                          {["DB_HOST" := "db"; "DB_USER" := "root";
                            "DB_PASSWORD" := "secret"; "DB_NAME" := "school"]}
                          (World ∅ 0 [] ∅ []) _ _)) _).
  vm_compute. reflexivity.
Defined.
